(** * Directory indexer (build_directory_md.py): model and verification

    Shallow embedding of [.github/workflows/scripts/build_directory_md.py].
    Python [str] values are modelled as [string]; the model covers names made
    of ASCII characters (the case conversions below act on the letters a-z
    and A-Z and leave every other character alone).  The file system is an
    explicit snapshot; the module-level list [g_output] and standard output
    are threaded through the calls as a [world]. *)

From Stdlib Require Import List String Ascii Bool Arith PeanoNat Lia.
From Stdlib Require Import Sorting.Sorted Sorting.Permutation.
From Stdlib Require Import Structures.OrderedTypeEx.
Import ListNotations.

Local Open Scope list_scope.
Local Open Scope string_scope.

(** ** Python [str] methods used by the script *)

Module PyStr.

(** The line feed character and the one-character string holding it. *)
Definition lf : ascii := ascii_of_nat 10.
Definition nl : string := String lf EmptyString.

Definition is_upper (c : ascii) : bool :=
  (65 <=? nat_of_ascii c)%nat && (nat_of_ascii c <=? 90)%nat.

Definition is_lower (c : ascii) : bool :=
  (97 <=? nat_of_ascii c)%nat && (nat_of_ascii c <=? 122)%nat.

Definition is_cased (c : ascii) : bool := is_upper c || is_lower c.

Definition lower_char (c : ascii) : ascii :=
  if is_upper c then ascii_of_nat (nat_of_ascii c + 32) else c.

Definition upper_char (c : ascii) : ascii :=
  if is_lower c then ascii_of_nat (nat_of_ascii c - 32) else c.

(** [s.lower()] *)
Fixpoint lower (s : string) : string :=
  match s with
  | EmptyString => EmptyString
  | String c s' => String (lower_char c) (lower s')
  end.

(** [s.title()]: a cased character is upper-cased when the character before
    it is not cased (or there is none) and lower-cased otherwise. *)
Fixpoint title_from (previous_is_cased : bool) (s : string) : string :=
  match s with
  | EmptyString => EmptyString
  | String c s' =>
      if is_cased c
      then String (if previous_is_cased then lower_char c else upper_char c)
                  (title_from true s')
      else String c (title_from false s')
  end.

Definition title (s : string) : string := title_from false s.

(** [s.replace(old, new)] for a one-character [old]. *)
Fixpoint replace (old : ascii) (new : string) (s : string) : string :=
  match s with
  | EmptyString => EmptyString
  | String c s' =>
      if Ascii.eqb c old then new ++ replace old new s'
      else String c (replace old new s')
  end.

(** [s.count(sub)] for a one-character [sub]. *)
Fixpoint count (sub : ascii) (s : string) : nat :=
  match s with
  | EmptyString => 0
  | String c s' => (if Ascii.eqb c sub then 1 else 0) + count sub s'
  end.

(** [c in chars] for a single character [c]. *)
Fixpoint mem (c : ascii) (chars : string) : bool :=
  match chars with
  | EmptyString => false
  | String d chars' => Ascii.eqb c d || mem c chars'
  end.

(** [s.lstrip(chars)]: drops the longest prefix made of characters of
    the set [chars]. *)
Fixpoint lstrip (chars : string) (s : string) : string :=
  match s with
  | EmptyString => EmptyString
  | String c s' => if mem c chars then lstrip chars s' else s
  end.

(** [s.rstrip(chars)] *)
Fixpoint rstrip (chars : string) (s : string) : string :=
  match s with
  | EmptyString => EmptyString
  | String c s' =>
      match rstrip chars s' with
      | EmptyString => if mem c chars then EmptyString else String c EmptyString
      | r => String c r
      end
  end.

(** [s.split(sep)] for a one-character [sep]: never returns the empty list,
    the empty string splits into one empty part. *)
Fixpoint split (sep : ascii) (s : string) : list string :=
  match s with
  | EmptyString => [EmptyString]
  | String c s' =>
      if Ascii.eqb c sep then EmptyString :: split sep s'
      else match split sep s' with
           | part :: parts => String c part :: parts
           | [] => [String c EmptyString]
           end
  end.

(** [sep.join(parts)] *)
Definition join (sep : string) (parts : list string) : string :=
  String.concat sep parts.

(** [n * s] *)
Fixpoint repeat (n : nat) (s : string) : string :=
  match n with
  | 0 => EmptyString
  | S n' => s ++ repeat n' s
  end.

(** [s.startswith(p)] *)
Definition startswith (p s : string) : bool := String.prefix p s.

(** [s.endswith(c)] for a one-character suffix. *)
Fixpoint endswith (c : ascii) (s : string) : bool :=
  match s with
  | EmptyString => false
  | String d EmptyString => Ascii.eqb d c
  | String _ s' => endswith c s'
  end.

(** Truth value of a string: non-empty. *)
Definition truthy (s : string) : bool :=
  match s with EmptyString => false | String _ _ => true end.

(** [a <= b] on strings: lexicographic on character codes. *)
Definition le (a b : string) : Prop := String.leb a b = true.

End PyStr.

(** ** [os.path] (posixpath) functions used by the script *)

Module OsPath.

Definition sep : ascii := "/"%char.
Definition extsep : ascii := "."%char.

(** [os.path.join(a, b)] *)
Definition join (a b : string) : string :=
  if PyStr.startswith (String sep EmptyString) b then b
  else if negb (PyStr.truthy a) || PyStr.endswith sep a then a ++ b
  else a ++ String sep b.

(** [(p[:i], p[i:])] for [i = p.rfind(c) + 1]: the cut after the last
    occurrence of [c]; the first component is empty when [c] does not occur. *)
Fixpoint cut_after_last (c : ascii) (p : string) : string * string :=
  match p with
  | EmptyString => (EmptyString, EmptyString)
  | String d p' =>
      match cut_after_last c p' with
      | (EmptyString, tail) =>
          if Ascii.eqb d c then (String d EmptyString, tail)
          else (EmptyString, String d tail)
      | (head, tail) => (String d head, tail)
      end
  end.

(** [head != sep * len(head)] *)
Fixpoint only_seps (s : string) : bool :=
  match s with
  | EmptyString => true
  | String c s' => Ascii.eqb c sep && only_seps s'
  end.

(** [os.path.split(p)] *)
Definition split (p : string) : string * string :=
  let (head, tail) := cut_after_last sep p in
  if PyStr.truthy head && negb (only_seps head)
  then (PyStr.rstrip (String sep EmptyString) head, tail)
  else (head, tail).

(** [(s[:k], s[k:])] for [k = s.rfind(c)], when [c] occurs in [s]. *)
Fixpoint cut_at_last (c : ascii) (s : string) : option (string * string) :=
  match s with
  | EmptyString => None
  | String d s' =>
      match cut_at_last c s' with
      | Some (root, ext) => Some (String d root, ext)
      | None => if Ascii.eqb d c then Some (EmptyString, s) else None
      end
  end.

(** Some character of [s] differs from the extension separator. *)
Fixpoint has_non_dot (s : string) : bool :=
  match s with
  | EmptyString => false
  | String c s' => negb (Ascii.eqb c extsep) || has_non_dot s'
  end.

(** [os.path.splitext(p)]: the extension starts at the last dot of the last
    path component, provided a character other than a dot precedes it in
    that component; otherwise the extension is empty. *)
Definition splitext (p : string) : string * string :=
  let (head, tail) := cut_after_last sep p in
  match cut_at_last extsep tail with
  | Some (root, ext) =>
      if has_non_dot root then (head ++ root, ext) else (p, EmptyString)
  | None => (p, EmptyString)
  end.

End OsPath.

(** ** File-system snapshot and [os.walk] *)

(** A directory: its sub-directories by name, in listing order, and the names
    of its non-directory entries.  A symbolic link to a directory is listed by
    [os.walk] among the directory names and not descended into; here it is a
    sub-directory without entries. *)
#[local] Unset Elimination Schemes.
Inductive tree : Type :=
| Dir (subdirs : list (string * tree)) (filenames : list string).
#[local] Set Elimination Schemes.

(** What the process sees: for every path at which a walk may start, the
    directory tree found there.  A path that names no directory is the empty
    tree (without [onerror], [os.walk] ignores the failing [scandir]). *)
Definition snapshot : Type := string -> tree.

(** [os.walk(top)], top-down, as a list of [(dirpath, dirnames, filenames)].
    The consumer may rewrite [dirnames] in place before the walk resumes; the
    script only ever filters it, which [keep] stands for: the walk descends
    into the kept names, in order. *)
Fixpoint os_walk (keep : string -> bool) (top : string) (t : tree)
  : list (string * list string * list string) :=
  match t with
  | Dir subdirs filenames =>
      (top, map fst subdirs, filenames)
        :: flat_map
             (fun entry : string * tree =>
                let (dirname, sub) := entry in
                if keep dirname then os_walk keep (OsPath.join top dirname) sub
                else [])
             subdirs
  end.

(** ** The script *)

Definition URL_BASE : string :=
  "https://github.com/TheAlgorithms/Rust/blob/master".

(** The process state the script touches: the module-level list [g_output]
    and what [print] has written, one element per call. *)
Record world : Type := World {
  g_output : list string;
  stdout : list string
}.

(** State at program start: [g_output = []], nothing printed. *)
Definition initial_world : world := World [] [].

(** [print(line)] followed by [g_output.append(line)]. *)
Definition emit (line : string) (w : world) : world :=
  World (g_output w ++ [line]) (stdout w ++ [line]).

(** [tuple(".rs".split())] *)
Definition fs_exts : list string := [".rs"].

(** [x in fs_exts] *)
Definition in_fs_exts (x : string) : bool := existsb (String.eqb x) fs_exts.

(** [d[0] not in "._"].  Directory entries are never the empty string; for
    it Python raises [IndexError], and the model does not descend. *)
Definition keep_dirname (d : string) : bool :=
  match d with
  | EmptyString => false
  | String c _ => negb (PyStr.mem c "._")
  end.

(** The test guarding the [yield]. *)
Definition good_filename (filename : string) : bool :=
  negb (filename =? "mod.rs")
  && in_fs_exts (PyStr.lower (snd (OsPath.splitext filename))).

Definition good_filepaths (fs : snapshot) (top_dir : string) : list string :=
  flat_map
    (fun visit : string * list string * list string =>
       let '(dirpath, _, filenames) := visit in
       flat_map
         (fun filename =>
            if good_filename filename
            then [PyStr.lstrip "./" (OsPath.join dirpath filename)]
            else [])
         filenames)
    (os_walk keep_dirname top_dir (fs top_dir)).

Definition md_prefix (i : nat) : string :=
  match i with
  | 0 => PyStr.nl ++ "##"
  | _ => PyStr.repeat i "  " ++ "*"
  end.

(** The line emitted for a path segment or a display name at depth [i]. *)
Definition segment_line (i : nat) (new_part : string) : string :=
  md_prefix i ++ " " ++ PyStr.title (PyStr.replace "_" " " new_part).

(** The loop of [print_path] from index [i] on. *)
Fixpoint print_path_loop (old_parts : list string) (i : nat)
    (new_parts : list string) (w : world) : world :=
  match new_parts with
  | [] => w
  | new_part :: rest =>
      let w' :=
        if (List.length old_parts <? i + 1)%nat
           || negb (nth i old_parts EmptyString =? new_part)
        then if PyStr.truthy new_part then emit (segment_line i new_part) w
             else w
        else w in
      print_path_loop old_parts (i + 1) rest w'
  end.

Definition print_path (old_path new_path : string) (w : world)
  : string * world :=
  let old_parts := PyStr.split OsPath.sep old_path in
  (new_path, print_path_loop old_parts 0 (PyStr.split OsPath.sep new_path) w).

(** [sorted(xs, key=key)]: the stable sort by [key]; an element goes in front
    of the first later element whose key is not smaller. *)
Fixpoint insert_by (key : string -> string) (x : string) (l : list string)
  : list string :=
  match l with
  | [] => [x]
  | y :: l' =>
      if (key x <=? key y)%string then x :: l else y :: insert_by key x l'
  end.

Definition sorted (key : string -> string) (xs : list string) : list string :=
  fold_right (insert_by key) [] xs.

(** The link target of a file entry. *)
Definition entry_url (filepath filename : string) : string :=
  PyStr.replace " " "%20" (PyStr.join "/" [URL_BASE; filepath; filename]).

(** The display name of a file entry. *)
Definition display_name (filename : string) : string :=
  fst (OsPath.splitext (PyStr.title (PyStr.replace "_" " " filename))).

(** The indentation depth of a file entry. *)
Definition entry_indent (filepath : string) : nat :=
  if PyStr.truthy filepath then PyStr.count OsPath.sep filepath + 1 else 0.

(** The line emitted for the file whose directory is [filepath]. *)
Definition entry_line (filepath filename : string) : string :=
  md_prefix (entry_indent filepath)
  ++ " [" ++ display_name filename ++ "](" ++ entry_url filepath filename ++ ")".

(** One iteration of the loop of [build_directory_md]; the loop carries
    [old_path] and the world. *)
Definition build_step (st : string * world) (path : string) : string * world :=
  let (old_path, w) := st in
  let (filepath, filename) := OsPath.split path in
  let (old_path', w') :=
    if negb (filepath =? old_path) then print_path old_path filepath w
    else (old_path, w) in
  (old_path', emit (entry_line filepath filename) w').

(** [build_directory_md(top_dir)].  The walk is started by
    [good_filepaths()], without argument, hence at its default ["."]. *)
Definition build_directory_md (fs : snapshot) (top_dir : string) (w : world)
  : string * world :=
  let (_, w') :=
    fold_left build_step (sorted PyStr.lower (good_filepaths fs "."))
              (EmptyString, w) in
  ("# List of all files" ++ PyStr.nl ++ PyStr.join PyStr.nl (g_output w'), w').

(** The module body: the text written to [DIRECTORY.md], and the final
    world. *)
Definition main (fs : snapshot) : string * world :=
  let (doc, w) := build_directory_md fs "." initial_world in
  (doc ++ PyStr.nl, w).

(** ** Snapshots given by the tree of the working directory *)

(** The directory named by the path components [parts] below [t]; the
    components [.] and the empty one stay in place, a name that is not a
    sub-directory leads to the empty tree. *)
Fixpoint subtree (t : tree) (parts : list string) : tree :=
  match parts with
  | [] => t
  | part :: rest =>
      if (part =? ".") || negb (PyStr.truthy part) then subtree t rest
      else match t with
           | Dir subdirs _ =>
               match find (fun e : string * tree => fst e =? part) subdirs with
               | Some (_, sub) => subtree sub rest
               | None => Dir [] []
               end
           end
  end.

(** The snapshot of a process whose working directory holds [cwd]. *)
Definition snapshot_of (cwd : tree) : snapshot :=
  fun top => subtree cwd (PyStr.split OsPath.sep top).

(** ** Notions used in the statements *)

(** [n] lines emitted in a row. *)
Definition emit_all (lines : list string) (w : world) : world :=
  World (g_output w ++ lines) (stdout w ++ lines).

(** The lines [print_path_loop] emits, as a list. *)
Fixpoint loop_lines (old_parts : list string) (i : nat)
    (new_parts : list string) : list string :=
  match new_parts with
  | [] => []
  | new_part :: rest =>
      ((if ((List.length old_parts <? i + 1)%nat
            || negb (nth i old_parts EmptyString =? new_part))
           && PyStr.truthy new_part
       then [segment_line i new_part] else [])
        ++ loop_lines old_parts (i + 1) rest)%list
  end.

(** Directory portion and file name of a yielded path. *)
Definition dir_of (path : string) : string := fst (OsPath.split path).
Definition name_of (path : string) : string := snd (OsPath.split path).

(** The file entry of a yielded path. *)
Definition entry_of_path (path : string) : string :=
  entry_line (dir_of path) (name_of path).

(** The directory lines emitted in the iteration for [path] when the cursor
    is [old_path]: what [print_path] appends when it is called. *)
Definition heading_lines (old_path path : string) : list string :=
  if negb (dir_of path =? old_path)
  then g_output (snd (print_path old_path (dir_of path) initial_world))
  else [].

(** The output of the loop, one block per path: the directory lines of the
    path followed by its file entry. *)
Fixpoint output_blocks (old_path : string) (paths : list string)
  : list (list string) :=
  match paths with
  | [] => []
  | path :: rest =>
      ((heading_lines old_path path ++ [entry_of_path path])%list)
        :: output_blocks (dir_of path) rest
  end.

(** The cursor before the iteration number [k]. *)
Definition cursor_before (paths : list string) (k : nat) : string :=
  match k with
  | 0 => EmptyString
  | S k' => dir_of (nth k' paths EmptyString)
  end.

(** First segment of a directory path. *)
Definition top_segment (dir : string) : string :=
  hd EmptyString (PyStr.split OsPath.sep dir).

(** A line rendered with the depth-0 marker. *)
Definition is_top_heading (line : string) : bool :=
  PyStr.startswith (md_prefix 0) line.

(** The name starts with a dot or an underscore. *)
Definition hidden (name : string) : bool :=
  match name with
  | EmptyString => false
  | String c _ => PyStr.mem c "._"
  end.

(** Directory entries are non-empty and hold no separator. *)
Definition valid_name (name : string) : bool :=
  PyStr.truthy name && (PyStr.count OsPath.sep name =? 0)%nat.

Fixpoint wf_tree (t : tree) : bool :=
  match t with
  | Dir subdirs filenames =>
      forallb (fun e : string * tree =>
                 let (d, sub) := e in valid_name d && wf_tree sub) subdirs
      && forallb valid_name filenames
  end.

(** [dir_at t names d]: following the directory names [names] from [t]
    leads to the directory [d]. *)
Inductive dir_at : tree -> list string -> tree -> Prop :=
| dir_here (t : tree) : dir_at t [] t
| dir_below (subdirs : list (string * tree)) (filenames : list string)
    (name : string) (sub : tree) (names : list string) (d : tree) :
    In (name, sub) subdirs ->
    dir_at sub names d ->
    dir_at (Dir subdirs filenames) (name :: names) d.

(** [file_at t names f]: the directory reached from [t] along [names] lists
    the file [f]. *)
Definition file_at (t : tree) (names : list string) (f : string) : Prop :=
  exists subdirs filenames,
    dir_at t names (Dir subdirs filenames) /\ In f filenames.

(** The [dirpath] that [os.walk] reports for the directory reached from
    [top] along [names]. *)
Definition dirpath_of (top : string) (names : list string) : string :=
  fold_left OsPath.join names top.

(** The path yielded for the file [f] of that directory. *)
Definition yielded_path (top : string) (names : list string) (f : string)
  : string :=
  PyStr.lstrip "./" (OsPath.join (dirpath_of top names) f).

(** ** Example trees *)

Definition sorting_tree : tree :=
  Dir [("sorting", Dir [] ["bubble_sort.rs"; "quick_sort.rs"])] [].

Definition two_dirs_tree : tree :=
  Dir [("other", Dir [] ["b.rs"]); ("src", Dir [] ["a.rs"])] [].

Definition dot_mod_tree : tree := Dir [] [".mod.rs"].

Definition mixed_tree : tree :=
  Dir [("a", Dir [("b_c", Dir [] ["x y.rs"; "mod.rs"; "Mod.rs"]);
                  (".git", Dir [] ["z.rs"])]
             ["q.RS"]);
       ("_build", Dir [("deep", Dir [] ["gen.rs"])] ["out.rs"])]
      [".hidden.rs"; "..rs"; ".rs"; "Z.rs"; "readme.md"].

(** [a] may precede [b] in a list sorted by [key]. *)
Definition key_le (key : string -> string) (a b : string) : Prop :=
  PyStr.le (key a) (key b).

(** Induction on trees: a property holds of a directory as soon as it holds
    of each of its sub-directories. *)
Fixpoint tree_induction (P : tree -> Prop)
    (step : forall subdirs filenames,
        Forall (fun e : string * tree => P (snd e)) subdirs ->
        P (Dir subdirs filenames))
    (t : tree) : P t :=
  match t with
  | Dir subdirs filenames =>
      step subdirs filenames
        ((fix all (l : list (string * tree))
            : Forall (fun e : string * tree => P (snd e)) l :=
            match l with
            | [] => Forall_nil _
            | e :: l' =>
                Forall_cons e
                  (match e return P (snd e) with
                   | (_, sub) => tree_induction P step sub
                   end)
                  (all l')
            end) subdirs)
  end.

Definition case_tree : tree :=
  Dir [("lib", Dir [] ["MOD.RS"; "Mod.rs"; "mod.rs"])] ["main.Rs"].

(** The lines of the segments [parts], the first one at depth [i]; an empty
    segment has no line. *)
Fixpoint segment_lines_from (i : nat) (parts : list string) : list string :=
  match parts with
  | [] => []
  | part :: rest =>
      ((if PyStr.truthy part then [segment_line i part] else [])
         ++ segment_lines_from (i + 1) rest)%list
  end.

(** [sorting_tree] with its directory listed in the other order. *)
Definition sorting_tree_reversed : tree :=
  Dir [("sorting", Dir [] ["quick_sort.rs"; "bubble_sort.rs"])] [].

(** The lines a call made at program start leaves in [g_output]. *)
Definition run_lines (fs : snapshot) : list string :=
  g_output (snd (build_directory_md fs "." initial_world)).

(** The document with unindented file entries. *)
Definition sorting_doc_flat : string :=
  PyStr.join PyStr.nl
    ["# List of all files";
     EmptyString;
     "## Sorting";
     "* [Bubble Sort](" ++ URL_BASE ++ "/sorting/bubble_sort.rs)";
     "* [Quick Sort](" ++ URL_BASE ++ "/sorting/quick_sort.rs)"].

(** The document with file entries indented by one pair of spaces. *)
Definition sorting_doc : string :=
  PyStr.join PyStr.nl
    ["# List of all files";
     EmptyString;
     "## Sorting";
     "  * [Bubble Sort](" ++ URL_BASE ++ "/sorting/bubble_sort.rs)";
     "  * [Quick Sort](" ++ URL_BASE ++ "/sorting/quick_sort.rs)"].

(** The index of the whole of [two_dirs_tree]. *)
Definition two_dirs_doc : string :=
  PyStr.join PyStr.nl
    ["# List of all files";
     EmptyString;
     "## Other";
     "  * [B](" ++ URL_BASE ++ "/other/b.rs)";
     EmptyString;
     "## Src";
     "  * [A](" ++ URL_BASE ++ "/src/a.rs)"].

(** ** The accumulator and the lines of a run *)

Section Emission.

Lemma emit_all_nil (w : world) : emit_all [] w = w.
Proof. destruct w; unfold emit_all; simpl; now rewrite !app_nil_r. Qed.

Lemma emit_all_app (l1 l2 : list string) (w : world) :
  emit_all l2 (emit_all l1 w) = emit_all (l1 ++ l2) w.
Proof. unfold emit_all; simpl; now rewrite !app_assoc. Qed.

Lemma emit_emit_all (line : string) (w : world) :
  emit line w = emit_all [line] w.
Proof. reflexivity. Qed.

Lemma g_output_emit_all (lines : list string) (w : world) :
  g_output (emit_all lines w) = (g_output w ++ lines)%list.
Proof. reflexivity. Qed.

Lemma print_path_loop_lines (old_parts new_parts : list string) :
  forall (i : nat) (w : world),
    print_path_loop old_parts i new_parts w
    = emit_all (loop_lines old_parts i new_parts) w.
Proof.
  induction new_parts as [|new_part rest IH]; intros i w; simpl.
  - now rewrite emit_all_nil.
  - rewrite IH.
    destruct ((List.length old_parts <? i + 1)%nat
              || negb (nth i old_parts EmptyString =? new_part));
      destruct (PyStr.truthy new_part); simpl; try reflexivity.
    now rewrite emit_emit_all, emit_all_app.
Qed.

Lemma print_path_spec (old_path new_path : string) (w : world) :
  print_path old_path new_path w
  = (new_path,
     emit_all (loop_lines (PyStr.split OsPath.sep old_path) 0
                          (PyStr.split OsPath.sep new_path)) w).
Proof. unfold print_path. now rewrite print_path_loop_lines. Qed.

Lemma heading_lines_loop (old_path path : string) :
  heading_lines old_path path
  = if negb (dir_of path =? old_path)
    then loop_lines (PyStr.split OsPath.sep old_path) 0
                    (PyStr.split OsPath.sep (dir_of path))
    else [].
Proof.
  unfold heading_lines. rewrite print_path_spec.
  destruct (negb (dir_of path =? old_path)); reflexivity.
Qed.

Lemma build_step_spec (old_path path : string) (w : world) :
  build_step (old_path, w) path
  = (dir_of path,
     emit_all (heading_lines old_path path ++ [entry_of_path path]) w).
Proof.
  rewrite heading_lines_loop.
  unfold build_step, entry_of_path, dir_of, name_of.
  destruct (OsPath.split path) as [filepath filename]; cbn [fst snd].
  rewrite print_path_spec.
  destruct (filepath =? old_path) eqn:E; cbn [negb app].
  - apply String.eqb_eq in E. subst. now rewrite emit_emit_all.
  - now rewrite emit_emit_all, emit_all_app.
Qed.

Lemma fold_build_step (paths : list string) :
  forall (old_path : string) (w : world),
    snd (fold_left build_step paths (old_path, w))
    = emit_all (List.concat (output_blocks old_path paths)) w.
Proof.
  induction paths as [|path rest IH]; intros old_path w;
    cbn [fold_left output_blocks List.concat].
  - now rewrite emit_all_nil.
  - rewrite build_step_spec, IH, emit_all_app. reflexivity.
Qed.

(** The lines one call appends: a function of the snapshot alone. *)
Lemma build_directory_md_spec (fs : snapshot) (top_dir : string) (w : world) :
  let lines :=
    List.concat (output_blocks EmptyString
              (sorted PyStr.lower (good_filepaths fs "."))) in
  build_directory_md fs top_dir w
  = ("# List of all files" ++ PyStr.nl
       ++ PyStr.join PyStr.nl (g_output w ++ lines),
     emit_all lines w).
Proof.
  intros lines. unfold build_directory_md.
  pose proof (fold_build_step (sorted PyStr.lower (good_filepaths fs "."))
                EmptyString w) as H.
  destruct (fold_left build_step _ _) as [old w']. simpl in H. subst w'.
  reflexivity.
Qed.

End Emission.

(** ** The library functions on sample inputs *)

Example split_examples :
  OsPath.split "a/b/c.rs" = ("a/b", "c.rs")
  /\ OsPath.split "c.rs" = (EmptyString, "c.rs")
  /\ OsPath.split "/a" = ("/", "a")
  /\ OsPath.split "a//" = ("a", EmptyString).
Proof. repeat split. Qed.

Example splitext_examples :
  OsPath.splitext "x.tar.gz" = ("x.tar", ".gz")
  /\ OsPath.splitext ".rs" = (".rs", EmptyString)
  /\ OsPath.splitext "..rs" = ("..rs", EmptyString)
  /\ OsPath.splitext ".a.rs" = (".a", ".rs")
  /\ OsPath.splitext "a.b/c" = ("a.b/c", EmptyString).
Proof. repeat split. Qed.

Example str_examples :
  PyStr.split "/" "a//b/" = ["a"; EmptyString; "b"; EmptyString]
  /\ PyStr.split "/" EmptyString = [EmptyString]
  /\ PyStr.lstrip "./" "./.a/b" = "a/b"
  /\ PyStr.title "bubble sort.rs" = "Bubble Sort.Rs"
  /\ PyStr.title "x1y_z" = "X1Y_Z"
  /\ PyStr.lower "MOD.RS" = "mod.rs".
Proof. repeat split. Qed.

Example walk_example :
  good_filepaths (snapshot_of mixed_tree) "."
  = ["hidden.rs"; "Z.rs"; "a/q.RS"; "a/b_c/x y.rs"; "a/b_c/Mod.rs"].
Proof. reflexivity. Qed.

(** ** Worked documents *)

(** C1, as stated: the document for the tree holding sorting/bubble_sort.rs
    and sorting/quick_sort.rs is not the one whose file entries start at the
    first column. *)
Lemma sorting_doc_not_flat :
  fst (build_directory_md (snapshot_of sorting_tree) "." initial_world)
  <> sorting_doc_flat.
Proof. apply String.eqb_neq. vm_compute. reflexivity. Qed.

(** C1, amended: for a working directory holding exactly
    sorting/bubble_sort.rs and sorting/quick_sort.rs, in whichever order the
    directory lists them, the call made at program start returns the title
    line, a blank line, the heading [## Sorting] and the two file entries,
    Bubble Sort before Quick Sort, each entry indented by one pair of spaces,
    newline-joined. *)
Theorem sorting_doc_returned (fs : snapshot) (top_dir : string)
    (filenames : list string) :
  fs "." = Dir [("sorting", Dir [] filenames)] [] ->
  Permutation ["bubble_sort.rs"; "quick_sort.rs"] filenames ->
  fst (build_directory_md fs top_dir initial_world) = sorting_doc.
Proof.
  intros H Hperm. unfold build_directory_md, good_filepaths. rewrite H.
  apply Permutation_length_2_inv in Hperm.
  destruct Hperm as [->| ->]; vm_compute; reflexivity.
Qed.

(** The scenario itself, with the directory listed in alphabetical order. *)
Lemma sorting_doc_returned_witness :
  fst (build_directory_md (snapshot_of sorting_tree) "." initial_world)
  = sorting_doc.
Proof.
  apply (sorting_doc_returned (snapshot_of sorting_tree) "."
           ["bubble_sort.rs"; "quick_sort.rs"]).
  - reflexivity.
  - apply Permutation_refl.
Defined.

(** The argument of [build_directory_md] plays no part in its result. *)
Lemma top_dir_ignored (fs : snapshot) (top_dir : string) (w : world) :
  build_directory_md fs top_dir w = build_directory_md fs "." w.
Proof. reflexivity. Qed.

(** C2: [build_directory_md] does not hand [top_dir] to the collector.  With
    a working directory holding other/b.rs and src/a.rs, the walk rooted at
    [src] yields src/a.rs alone, yet [build_directory_md "src"] returns the
    index of the whole working directory, the same as for [.]. *)
Theorem top_dir_not_passed_on :
  good_filepaths (snapshot_of two_dirs_tree) "src" = ["src/a.rs"]
  /\ fst (build_directory_md (snapshot_of two_dirs_tree) "src" initial_world)
     = two_dirs_doc
  /\ build_directory_md (snapshot_of two_dirs_tree) "src" initial_world
     = build_directory_md (snapshot_of two_dirs_tree) "." initial_world.
Proof. repeat split; vm_compute; reflexivity. Qed.

(** ** Repeated calls *)

(** C3, as stated: a second call in the same process, on the same snapshot,
    returns another document than the first. *)
Lemma second_call_differs :
  fst (build_directory_md (snapshot_of sorting_tree) "." initial_world)
  <> fst (build_directory_md (snapshot_of sorting_tree) "."
            (snd (build_directory_md (snapshot_of sorting_tree) "."
                    initial_world))).
Proof. apply String.eqb_neq. vm_compute. reflexivity. Qed.

(** C3, amended: a call returns the title line followed by the earlier
    contents of the accumulator and then the lines of the snapshot, which do
    not depend on the accumulator.  So calls started from the same
    accumulator contents return equal documents; the single call of a
    program run starts from the empty accumulator and writes the title line,
    the lines of the snapshot and a final line feed; a second call in the
    same process returns the lines of the snapshot twice. *)
Theorem calls_accumulate (fs : snapshot) (top_dir : string) (w : world) :
  fst (build_directory_md fs top_dir w)
  = "# List of all files" ++ PyStr.nl
      ++ PyStr.join PyStr.nl (g_output w ++ run_lines fs)
  /\ g_output (snd (build_directory_md fs top_dir w))
     = (g_output w ++ run_lines fs)%list
  /\ fst (main fs)
     = ("# List of all files" ++ PyStr.nl
          ++ PyStr.join PyStr.nl (run_lines fs)) ++ PyStr.nl
  /\ fst (build_directory_md fs top_dir
            (snd (build_directory_md fs top_dir initial_world)))
     = "# List of all files" ++ PyStr.nl
         ++ PyStr.join PyStr.nl (run_lines fs ++ run_lines fs).
Proof.
  unfold main, run_lines. rewrite !build_directory_md_spec. cbn [fst snd].
  rewrite !g_output_emit_all. cbn [g_output initial_world app].
  repeat split.
Qed.

(** ** The sort *)

Section Sorting.

Variable key : string -> string.

Lemma leb_refl (a : string) : (a <=? a)%string = true.
Proof.
  unfold String.leb.
  pose proof (proj2 (String_as_OT.cmp_eq a a) eq_refl) as H.
  unfold String_as_OT.cmp in H. now rewrite H.
Qed.

Lemma leb_trans (a b c : string) :
  (a <=? b)%string = true -> (b <=? c)%string = true ->
  (a <=? c)%string = true.
Proof.
  unfold String.leb.
  destruct (String.compare a b) eqn:Hab; try discriminate;
    destruct (String.compare b c) eqn:Hbc; try discriminate; intros _ _.
  - apply String_as_OT.cmp_eq in Hab. subst. now rewrite Hbc.
  - apply String_as_OT.cmp_eq in Hab. subst. now rewrite Hbc.
  - apply String_as_OT.cmp_eq in Hbc. subst. now rewrite Hab.
  - apply String_as_OT.cmp_lt in Hab. apply String_as_OT.cmp_lt in Hbc.
    pose proof (String_as_OT.lt_trans _ _ _ Hab Hbc) as Hac.
    apply String_as_OT.cmp_lt in Hac. unfold String_as_OT.cmp in Hac.
    now rewrite Hac.
Qed.

Lemma leb_flip (a b : string) :
  (a <=? b)%string = false -> (b <=? a)%string = true.
Proof.
  intros H. destruct (String.leb_total a b) as [H'|H']; congruence.
Qed.

Lemma insert_by_perm (x : string) (l : list string) :
  Permutation (x :: l) (insert_by key x l).
Proof.
  induction l as [|y l IH]; simpl.
  - apply Permutation_refl.
  - destruct (key x <=? key y)%string.
    + apply Permutation_refl.
    + eapply perm_trans; [apply perm_swap | now apply perm_skip].
Qed.

Lemma sorted_perm (l : list string) : Permutation l (sorted key l).
Proof.
  induction l as [|x l IH]; simpl.
  - apply perm_nil.
  - eapply perm_trans; [apply perm_skip, IH | apply insert_by_perm].
Qed.

Lemma insert_by_sorted (x : string) (l : list string) :
  StronglySorted (key_le key) l -> StronglySorted (key_le key) (insert_by key x l).
Proof.
  induction 1 as [|y l Hs IH Hall]; simpl.
  - constructor; constructor.
  - destruct (key x <=? key y)%string eqn:E.
    + constructor; [now constructor|].
      constructor; [exact E|].
      eapply Forall_impl; [|exact Hall].
      intros z Hz. unfold key_le, PyStr.le in *. eapply leb_trans; eauto.
    + constructor; [exact IH|].
      eapply Permutation_Forall; [apply insert_by_perm|].
      constructor; [|exact Hall].
      now apply leb_flip.
Qed.

Lemma sorted_sorted (l : list string) : StronglySorted (key_le key) (sorted key l).
Proof.
  induction l as [|x l IH]; simpl.
  - constructor.
  - now apply insert_by_sorted.
Qed.

End Sorting.

(** C6: the call processes the yielded paths in the order [sorted] gives
    them; the output is made of one block per path, in that order, each
    block ending with the file entry of its path; and whenever a path comes
    before another in that order, its lower-cased full path is less than or
    equal to the lower-cased full path of the other. *)
Theorem file_entries_case_insensitive_order (fs : snapshot) (top_dir : string) :
  g_output (snd (build_directory_md fs top_dir initial_world))
  = List.concat (output_blocks EmptyString
                   (sorted PyStr.lower (good_filepaths fs ".")))
  /\ Permutation (good_filepaths fs ".")
                 (sorted PyStr.lower (good_filepaths fs "."))
  /\ StronglySorted
       (fun a b => PyStr.le (PyStr.lower a) (PyStr.lower b))
       (sorted PyStr.lower (good_filepaths fs ".")).
Proof.
  split; [|split].
  - now rewrite build_directory_md_spec.
  - apply sorted_perm.
  - apply (sorted_sorted PyStr.lower).
Qed.

(** ** Blocks, depths and markers *)

Section Blocks.

Lemma split_not_nil (c : ascii) (s : string) : PyStr.split c s <> [].
Proof.
  destruct s as [|d s]; simpl; [discriminate|].
  destruct (Ascii.eqb d c); [discriminate|].
  destruct (PyStr.split c s); discriminate.
Qed.

Lemma split_length (c : ascii) (s : string) :
  List.length (PyStr.split c s) = PyStr.count c s + 1.
Proof.
  induction s as [|d s IH]; simpl; [reflexivity|].
  destruct (Ascii.eqb d c); simpl; [now rewrite IH|].
  destruct (PyStr.split c s); simpl in *; lia.
Qed.

Lemma entry_in_blocks (paths : list string) (path : string) :
  In path paths ->
  forall old_path,
    In (entry_of_path path) (List.concat (output_blocks old_path paths)).
Proof.
  induction paths as [|p rest IH]; intros Hin old_path; [contradiction|].
  cbn [output_blocks List.concat]. apply in_or_app.
  destruct Hin as [->|Hin].
  - left. apply in_or_app. right. now left.
  - right. now apply IH.
Qed.

Lemma entry_in_output (fs : snapshot) (top_dir path : string) :
  In path (good_filepaths fs ".") ->
  In (entry_of_path path)
     (g_output (snd (build_directory_md fs top_dir initial_world))).
Proof.
  intros Hin. rewrite build_directory_md_spec. cbn [snd].
  rewrite g_output_emit_all. cbn [g_output initial_world app].
  apply entry_in_blocks.
  eapply Permutation_in; [apply sorted_perm | exact Hin].
Qed.

Lemma block_at (paths : list string) :
  forall (k : nat) (old_path path : string),
    nth_error paths k = Some path ->
    nth_error (output_blocks old_path paths) k
    = Some (heading_lines
              (match k with
               | 0 => old_path
               | S k' => dir_of (nth k' paths EmptyString)
               end) path
            ++ [entry_of_path path])%list.
Proof.
  induction paths as [|p rest IH]; intros k old_path path Hk.
  - destruct k; discriminate.
  - destruct k as [|k]; cbn [output_blocks nth_error] in *.
    + now injection Hk as ->.
    + rewrite (IH k (dir_of p) path Hk).
      destruct k; reflexivity.
Qed.

Lemma deeper_lines_not_top (old_parts new_parts : list string) :
  forall i, 1 <= i ->
    existsb is_top_heading (loop_lines old_parts i new_parts) = false.
Proof.
  induction new_parts as [|part rest IH]; intros i Hi; [reflexivity|].
  cbn [loop_lines]. rewrite existsb_app, IH by lia.
  destruct (_ && _); [|reflexivity].
  destruct i as [|i]; [lia|]. reflexivity.
Qed.

Lemma top_line_is_top (part : string) :
  is_top_heading (segment_line 0 part) = true.
Proof. reflexivity. Qed.

Lemma heading_iff (old_path path : string) :
  existsb is_top_heading (heading_lines old_path path) = true
  <-> top_segment (dir_of path) <> top_segment old_path
      /\ top_segment (dir_of path) <> EmptyString.
Proof.
  rewrite heading_lines_loop. unfold top_segment.
  destruct (String.eqb_spec (dir_of path) old_path) as [->|Hne]; cbn [negb].
  - split; [discriminate | intros [H _]; now elim H].
  - pose proof (split_not_nil OsPath.sep old_path) as Ho.
    pose proof (split_not_nil OsPath.sep (dir_of path)) as Hn.
    destruct (PyStr.split OsPath.sep old_path) as [|o0 orest];
      [now elim Ho|].
    destruct (PyStr.split OsPath.sep (dir_of path)) as [|n0 nrest];
      [now elim Hn|].
    cbn [loop_lines hd List.length nth]. rewrite existsb_app.
    rewrite deeper_lines_not_top by (simpl; lia).
    rewrite orb_false_r.
    replace (S (List.length orest) <? 0 + 1)%nat with false
      by (symmetry; apply Nat.ltb_ge; simpl; lia).
    cbn [orb].
    destruct (String.eqb_spec o0 n0) as [->|Hon]; cbn [negb andb].
    + split; [discriminate | intros [H _]; now elim H].
    + destruct n0 as [|c n0]; cbn [PyStr.truthy existsb].
      * split; [discriminate | intros [_ H]; now elim H].
      * rewrite top_line_is_top. split; [|reflexivity].
        intros _. split; [congruence | discriminate].
Qed.

End Blocks.

(** C7: the file entry of every yielded path is in the output and is the
    marker of its depth followed by the link; the depth is zero for a file
    without directory portion and otherwise the number of separators of the
    directory portion plus one, which is the number of its segments; the
    marker of depth 0 is a line feed followed by [##], and the marker of a
    depth [d >= 1] is [d] pairs of spaces followed by [*]. *)
Theorem file_entry_depth_and_marker (fs : snapshot) (top_dir path : string) :
  In path (good_filepaths fs ".") ->
  In (md_prefix (entry_indent (dir_of path))
        ++ " [" ++ display_name (name_of path)
        ++ "](" ++ entry_url (dir_of path) (name_of path) ++ ")")
     (g_output (snd (build_directory_md fs top_dir initial_world)))
  /\ (dir_of path = EmptyString -> entry_indent (dir_of path) = 0)
  /\ (dir_of path <> EmptyString ->
      entry_indent (dir_of path) = PyStr.count OsPath.sep (dir_of path) + 1
      /\ entry_indent (dir_of path)
         = List.length (PyStr.split OsPath.sep (dir_of path)))
  /\ md_prefix 0 = PyStr.nl ++ "##"
  /\ (forall d, 1 <= d -> md_prefix d = PyStr.repeat d "  " ++ "*").
Proof.
  intros Hin. split; [|split; [|split; [|split]]].
  - apply (entry_in_output fs top_dir path Hin).
  - intros ->. reflexivity.
  - intros Hne. rewrite split_length. unfold entry_indent.
    destruct (dir_of path); [now elim Hne|]. split; reflexivity.
  - reflexivity.
  - intros [|d] Hd; [lia | reflexivity].
Qed.

(** The entry of sorting/quick_sort.rs: depth 1, one pair of spaces. *)
Lemma file_entry_depth_and_marker_witness :
  In "sorting/quick_sort.rs" (good_filepaths (snapshot_of sorting_tree) ".")
  /\ In ("  * [Quick Sort](" ++ URL_BASE ++ "/sorting/quick_sort.rs)")
        (g_output (snd (build_directory_md (snapshot_of sorting_tree) "."
                          initial_world))).
Proof.
  assert (H : In "sorting/quick_sort.rs"
                 (good_filepaths (snapshot_of sorting_tree) "."))
    by (right; left; reflexivity).
  split; [exact H|].
  exact (proj1 (file_entry_depth_and_marker (snapshot_of sorting_tree) "."
                  "sorting/quick_sort.rs" H)).
Defined.

(** C8: in the sorted processing order, the block of the file number [k]
    holds the directory lines emitted for it followed by its file entry, and
    among these directory lines there is a top-level heading if and only if
    the first segment of the directory of the file differs from the first
    segment of the directory of the file before it (the empty path before the
    first file) and is not empty. *)
Theorem top_level_heading_iff (fs : snapshot) (top_dir : string)
    (k : nat) (path : string) :
  nth_error (sorted PyStr.lower (good_filepaths fs ".")) k = Some path ->
  g_output (snd (build_directory_md fs top_dir initial_world))
  = List.concat (output_blocks EmptyString
                   (sorted PyStr.lower (good_filepaths fs ".")))
  /\ nth_error (output_blocks EmptyString
                  (sorted PyStr.lower (good_filepaths fs "."))) k
     = Some (heading_lines
               (cursor_before (sorted PyStr.lower (good_filepaths fs ".")) k)
               path
             ++ [entry_of_path path])%list
  /\ (existsb is_top_heading
        (heading_lines
           (cursor_before (sorted PyStr.lower (good_filepaths fs ".")) k)
           path) = true
      <-> top_segment (dir_of path)
          <> top_segment
               (cursor_before (sorted PyStr.lower (good_filepaths fs ".")) k)
          /\ top_segment (dir_of path) <> EmptyString).
Proof.
  intros Hk. split; [|split].
  - now rewrite build_directory_md_spec.
  - apply (block_at _ k EmptyString path Hk).
  - apply heading_iff.
Qed.

(** The fourth file of [mixed_tree], a top-level file after the files of
    the directory [a]. *)
Lemma top_level_heading_iff_witness :
  nth_error (sorted PyStr.lower (good_filepaths (snapshot_of mixed_tree) "."))
            3 = Some "hidden.rs"
  /\ (existsb is_top_heading
        (heading_lines
           (cursor_before
              (sorted PyStr.lower (good_filepaths (snapshot_of mixed_tree) "."))
              3)
           "hidden.rs") = true
      <-> top_segment (dir_of "hidden.rs")
          <> top_segment
               (cursor_before
                  (sorted PyStr.lower
                     (good_filepaths (snapshot_of mixed_tree) ".")) 3)
          /\ top_segment (dir_of "hidden.rs") <> EmptyString).
Proof.
  split; [reflexivity|].
  exact (proj2 (proj2 (top_level_heading_iff (snapshot_of mixed_tree) "."
                         3 "hidden.rs" eq_refl))).
Defined.

(** ** The walk *)

Section Walk.

Variable keep : string -> bool.

Lemma walk_visits_sound (t : tree) :
  forall top dirpath dirnames filenames,
    In (dirpath, dirnames, filenames) (os_walk keep top t) ->
    exists names subdirs,
      dir_at t names (Dir subdirs filenames)
      /\ dirnames = map fst subdirs
      /\ Forall (fun d => keep d = true) names
      /\ dirpath = dirpath_of top names.
Proof.
  induction t as [subdirs filenames IH] using tree_induction.
  intros top dirpath dirnames fns Hin. cbn [os_walk] in Hin.
  destruct Hin as [Heq|Hin].
  - injection Heq as <- <- <-. exists [], subdirs.
    repeat split; constructor.
  - apply in_flat_map in Hin. destruct Hin as [[d sub] [Hd Hin]].
    destruct (keep d) eqn:Hk; [|contradiction].
    rewrite Forall_forall in IH. specialize (IH _ Hd). cbn [snd] in IH.
    destruct (IH _ _ _ _ Hin) as (names & sd & Hat & Hdn & Hall & Hdp).
    exists (d :: names), sd. repeat split; auto.
    econstructor; eauto.
Qed.

Lemma walk_visits_complete (t : tree) (names : list string) (d : tree) :
  dir_at t names d ->
  forall top subdirs filenames,
    d = Dir subdirs filenames ->
    Forall (fun n => keep n = true) names ->
    In (dirpath_of top names, map fst subdirs, filenames)
       (os_walk keep top t).
Proof.
  induction 1 as [t|subdirs0 filenames0 name sub names d Hin Hat IH];
    intros top subdirs filenames Hd Hall.
  - subst t. left. reflexivity.
  - cbn [os_walk]. right. apply in_flat_map.
    exists (name, sub). split; [exact Hin|].
    inversion Hall as [|? ? Hk Hall']; subst. rewrite Hk.
    apply (IH (OsPath.join top name) subdirs filenames eq_refl Hall').
Qed.

End Walk.

Section Collector.

Lemma good_filepaths_sound (fs : snapshot) (top path : string) :
  In path (good_filepaths fs top) ->
  exists names f,
    file_at (fs top) names f
    /\ Forall (fun d => keep_dirname d = true) names
    /\ good_filename f = true
    /\ path = yielded_path top names f.
Proof.
  unfold good_filepaths. intros Hin.
  apply in_flat_map in Hin. destruct Hin as [[[dirpath dirnames] fns] [Hv Hin]].
  apply in_flat_map in Hin. destruct Hin as [f [Hf Hin]].
  destruct (good_filename f) eqn:Hg; [|contradiction].
  destruct Hin as [<-|[]].
  apply walk_visits_sound in Hv.
  destruct Hv as (names & sd & Hat & _ & Hall & ->).
  exists names, f. repeat split; auto. now exists sd, fns.
Qed.

Lemma good_filepaths_complete (fs : snapshot) (top : string)
    (names : list string) (f : string) :
  file_at (fs top) names f ->
  Forall (fun d => keep_dirname d = true) names ->
  good_filename f = true ->
  In (yielded_path top names f) (good_filepaths fs top).
Proof.
  intros (sd & fns & Hat & Hf) Hall Hg. unfold good_filepaths.
  apply in_flat_map.
  exists (dirpath_of top names, map fst sd, fns). split.
  - eapply walk_visits_complete; eauto.
  - apply in_flat_map. exists f. split; [exact Hf|].
    rewrite Hg. now left.
Qed.

Lemma keep_not_hidden (d : string) :
  keep_dirname d = true -> hidden d = false.
Proof.
  destruct d as [|c d]; [reflexivity|]. simpl.
  now destruct (Ascii.eqb c "." || (Ascii.eqb c "_" || false)).
Qed.

End Collector.

(** ** Paths as strings *)

Section PathStrings.

Lemma append_assoc (a b c : string) : (a ++ b) ++ c = a ++ b ++ c.
Proof. induction a as [|x a IH]; simpl; congruence. Qed.

Lemma count_append (c : ascii) (a b : string) :
  PyStr.count c (a ++ b) = PyStr.count c a + PyStr.count c b.
Proof. induction a as [|x a IH]; simpl; [reflexivity | rewrite IH; lia]. Qed.

Lemma count_cons_zero (c x : ascii) (s : string) :
  PyStr.count c (String x s) = 0 ->
  Ascii.eqb x c = false /\ PyStr.count c s = 0.
Proof. simpl. destruct (Ascii.eqb x c); [discriminate | auto]. Qed.

Lemma valid_name_inv (n : string) :
  valid_name n = true ->
  PyStr.truthy n = true /\ PyStr.count OsPath.sep n = 0.
Proof.
  unfold valid_name. intros H. apply andb_prop in H. destruct H as [Ht Hc].
  split; [exact Ht | now apply Nat.eqb_eq].
Qed.

Lemma startswith_sep_no (n : string) :
  PyStr.count OsPath.sep n = 0 ->
  PyStr.startswith (String OsPath.sep EmptyString) n = false.
Proof.
  destruct n as [|x n]; [reflexivity|]. intros H.
  apply count_cons_zero in H. destruct H as [H _].
  unfold PyStr.startswith. cbn [String.prefix].
  destruct (ascii_dec OsPath.sep x) as [<-|]; [|reflexivity].
  now rewrite Ascii.eqb_refl in H.
Qed.

Lemma endswith_cons (c x y : ascii) (s : string) :
  PyStr.endswith c (String x (String y s)) = PyStr.endswith c (String y s).
Proof. reflexivity. Qed.

Lemma endswith_no (c : ascii) (n : string) :
  PyStr.count c n = 0 -> PyStr.endswith c n = false.
Proof.
  induction n as [|x n IH]; [reflexivity|]. intros H.
  apply count_cons_zero in H. destruct H as [Hx Hn].
  destruct n as [|y n]; [exact Hx|].
  rewrite endswith_cons. now apply IH.
Qed.

Lemma endswith_append (c : ascii) (a b : string) :
  PyStr.truthy b = true ->
  PyStr.endswith c (a ++ b) = PyStr.endswith c b.
Proof.
  intros Hb. induction a as [|x a IH]; [reflexivity|].
  cbn [append]. destruct (a ++ b) as [|y s] eqn:E.
  - destruct a; destruct b; discriminate.
  - now rewrite endswith_cons.
Qed.

Lemma truthy_append (a b : string) :
  PyStr.truthy a = true -> PyStr.truthy (a ++ b) = true.
Proof. now destruct a. Qed.

Lemma join_plain (a b : string) :
  PyStr.truthy a = true -> PyStr.endswith OsPath.sep a = false ->
  PyStr.count OsPath.sep b = 0 ->
  OsPath.join a b = a ++ String OsPath.sep b.
Proof.
  intros Ha He Hb. unfold OsPath.join.
  now rewrite (startswith_sep_no b Hb), Ha, He.
Qed.

Lemma concat_cons2 (sep x y : string) (l : list string) :
  String.concat sep (x :: y :: l) = x ++ sep ++ String.concat sep (y :: l).
Proof. reflexivity. Qed.

Lemma concat_snoc (names : list string) (f : string) :
  names <> [] ->
  String.concat "/" (names ++ [f])
  = String.concat "/" names ++ String OsPath.sep f.
Proof.
  induction names as [|n names IH]; intros Hne; [now elim Hne|].
  destruct names as [|y l]; [reflexivity|].
  change ((n :: y :: l) ++ [f])%list with (n :: (y :: (l ++ [f]))%list).
  rewrite !concat_cons2.
  change (y :: (l ++ [f])%list) with ((y :: l) ++ [f])%list.
  rewrite IH by discriminate.
  now rewrite !append_assoc.
Qed.

Lemma joined_path (names : list string) :
  forall top f,
    PyStr.truthy top = true -> PyStr.endswith OsPath.sep top = false ->
    Forall (fun n => valid_name n = true) names ->
    valid_name f = true ->
    OsPath.join (dirpath_of top names) f
    = top ++ String OsPath.sep (String.concat "/" (names ++ [f])).
Proof.
  induction names as [|n names IH]; intros top f Ht He Hall Hf.
  - apply valid_name_inv in Hf. destruct Hf as [_ Hf].
    now apply join_plain.
  - inversion Hall as [|? ? Hn Hall']; subst.
    apply valid_name_inv in Hn. destruct Hn as [Hn1 Hn2].
    unfold dirpath_of. cbn [fold_left].
    rewrite (join_plain top n Ht He Hn2).
    change (fold_left OsPath.join names (top ++ String OsPath.sep n))
      with (dirpath_of (top ++ String OsPath.sep n) names).
    rewrite IH; auto.
    + change ((n :: names) ++ [f])%list with (n :: (names ++ [f])%list).
      destruct (names ++ [f])%list as [|y l] eqn:E;
        [now destruct names|].
      rewrite concat_cons2, append_assoc. reflexivity.
    + now apply truthy_append.
    + rewrite endswith_append by reflexivity.
      destruct n as [|x n]; [discriminate|].
      rewrite endswith_cons. now apply endswith_no.
Qed.

Lemma first_char_kept (n : string) :
  keep_dirname n = true -> PyStr.count OsPath.sep n = 0 ->
  forall s, PyStr.lstrip "./" (n ++ s) = n ++ s.
Proof.
  destruct n as [|c n]; [discriminate|]. intros Hk Hc s.
  apply count_cons_zero in Hc. destruct Hc as [Hc _].
  cbn [keep_dirname PyStr.mem] in Hk.
  cbn [append PyStr.lstrip PyStr.mem].
  unfold OsPath.sep in Hc. rewrite Hc.
  destruct (Ascii.eqb c "."); [discriminate | reflexivity].
Qed.

Lemma yielded_top (f : string) :
  yielded_path "." [] f = PyStr.lstrip "./" f.
Proof.
  unfold yielded_path, dirpath_of, OsPath.join. cbn [fold_left].
  destruct (PyStr.startswith (String OsPath.sep EmptyString) f);
    reflexivity.
Qed.

Lemma yielded_nested (n : string) (names : list string) (f : string) :
  Forall (fun d => valid_name d = true) (n :: names) ->
  keep_dirname n = true ->
  valid_name f = true ->
  yielded_path "." (n :: names) f
  = String.concat "/" ((n :: names) ++ [f]).
Proof.
  intros Hall Hk Hf. unfold yielded_path.
  rewrite joined_path by (auto; reflexivity).
  change (PyStr.lstrip "./" ("." ++ String OsPath.sep
                               (String.concat "/" ((n :: names) ++ [f]))))
    with (PyStr.lstrip "./" (String.concat "/" ((n :: names) ++ [f]))).
  inversion Hall as [|? ? Hn _]; subst.
  apply valid_name_inv in Hn. destruct Hn as [_ Hn].
  change ((n :: names) ++ [f])%list with (n :: (names ++ [f])%list).
  destruct (names ++ [f])%list as [|y l] eqn:E; [now destruct names|].
  rewrite concat_cons2. now apply first_char_kept.
Qed.

End PathStrings.

Section Splitting.

Lemma cut_after_last_none (c : ascii) (s : string) :
  PyStr.count c s = 0 -> OsPath.cut_after_last c s = (EmptyString, s).
Proof.
  induction s as [|x s IH]; [reflexivity|]. intros H.
  apply count_cons_zero in H. destruct H as [Hx Hs].
  cbn [OsPath.cut_after_last]. now rewrite (IH Hs), Hx.
Qed.

Lemma cut_after_last_snoc (c : ascii) (a f : string) :
  PyStr.count c f = 0 ->
  OsPath.cut_after_last c (a ++ String c f) = (a ++ String c EmptyString, f).
Proof.
  intros Hf. induction a as [|x a IH]; cbn [append OsPath.cut_after_last].
  - now rewrite (cut_after_last_none c f Hf), Ascii.eqb_refl.
  - rewrite IH. now destruct a.
Qed.

Lemma rstrip_snoc (a : string) :
  PyStr.truthy a = true -> PyStr.endswith OsPath.sep a = false ->
  PyStr.rstrip (String OsPath.sep EmptyString)
               (a ++ String OsPath.sep EmptyString) = a.
Proof.
  induction a as [|x a IH]; [discriminate|]. intros _ He.
  destruct a as [|y a].
  - cbn [PyStr.endswith] in He.
    cbn [append PyStr.rstrip PyStr.mem]. rewrite Ascii.eqb_refl.
    cbn [orb]. now rewrite He.
  - rewrite endswith_cons in He. specialize (IH eq_refl He).
    cbn [append PyStr.rstrip] in *. now rewrite IH.
Qed.

Lemma concat_truthy (n : string) (names : list string) :
  PyStr.truthy n = true ->
  PyStr.truthy (String.concat "/" (n :: names)) = true.
Proof.
  intros Hn. destruct names; [exact Hn|].
  rewrite concat_cons2. now apply truthy_append.
Qed.

Lemma concat_endswith (names : list string) :
  names <> [] ->
  Forall (fun n => valid_name n = true) names ->
  PyStr.endswith OsPath.sep (String.concat "/" names) = false.
Proof.
  induction names as [|n names IH]; intros Hne Hall; [now elim Hne|].
  inversion Hall as [|? ? Hn Hall']; subst.
  apply valid_name_inv in Hn. destruct Hn as [Hn1 Hn2].
  destruct names as [|y l]; [now apply endswith_no|].
  rewrite concat_cons2, endswith_append by reflexivity.
  inversion Hall' as [|? ? Hy _]; subst.
  apply valid_name_inv in Hy. destruct Hy as [Hy _].
  pose proof (concat_truthy y l Hy) as Ht.
  cbn [append]. destruct (String.concat "/" (y :: l)) eqn:E;
    [discriminate|].
  rewrite endswith_cons. apply IH; [discriminate | exact Hall'].
Qed.

Lemma only_seps_first (c : ascii) (s : string) :
  Ascii.eqb c OsPath.sep = false -> OsPath.only_seps (String c s) = false.
Proof. intros H. cbn. now rewrite H. Qed.

(** A path made of valid names splits into its directory and its last
    name. *)
Lemma split_concat (n : string) (names : list string) (f : string) :
  Forall (fun d => valid_name d = true) (n :: names) ->
  valid_name f = true ->
  OsPath.split (String.concat "/" ((n :: names) ++ [f]))
  = (String.concat "/" (n :: names), f).
Proof.
  intros Hall Hf. apply valid_name_inv in Hf. destruct Hf as [_ Hf].
  rewrite concat_snoc by discriminate.
  unfold OsPath.split. rewrite (cut_after_last_snoc OsPath.sep _ f Hf).
  inversion Hall as [|? ? Hn _]; subst.
  apply valid_name_inv in Hn. destruct Hn as [Hn1 Hn2].
  pose proof (concat_truthy n names Hn1) as Ht.
  pose proof (concat_endswith (n :: names) ltac:(discriminate) Hall) as He.
  assert (Ho : OsPath.only_seps
                 (String.concat "/" (n :: names)
                    ++ String OsPath.sep EmptyString) = false).
  { destruct n as [|c n]; [discriminate|].
    apply count_cons_zero in Hn2. destruct Hn2 as [Hc _].
    destruct names; cbn [String.concat append]; now apply only_seps_first. }
  rewrite Ho, (truthy_append _ _ Ht). cbn [andb negb].
  now rewrite rstrip_snoc.
Qed.

Lemma split_no_sep (c : ascii) (n : string) :
  PyStr.count c n = 0 -> PyStr.split c n = [n].
Proof.
  induction n as [|x n IH]; [reflexivity|]. intros H.
  apply count_cons_zero in H. destruct H as [Hx Hn].
  cbn [PyStr.split]. now rewrite Hx, (IH Hn).
Qed.

Lemma split_append (c : ascii) (n s : string) :
  PyStr.count c n = 0 ->
  PyStr.split c (n ++ String c s) = n :: PyStr.split c s.
Proof.
  induction n as [|x n IH]; intros H.
  - cbn [append PyStr.split]. now rewrite Ascii.eqb_refl.
  - apply count_cons_zero in H. destruct H as [Hx Hn].
    cbn [append PyStr.split]. now rewrite Hx, (IH Hn).
Qed.

Lemma split_of_concat (names : list string) :
  names <> [] ->
  Forall (fun n => valid_name n = true) names ->
  PyStr.split OsPath.sep (String.concat "/" names) = names.
Proof.
  induction names as [|n names IH]; intros Hne Hall; [now elim Hne|].
  inversion Hall as [|? ? Hn Hall']; subst.
  apply valid_name_inv in Hn. destruct Hn as [_ Hn].
  destruct names as [|y l]; [now apply split_no_sep|].
  rewrite concat_cons2. cbn [append].
  rewrite (split_append OsPath.sep n _ Hn).
  now rewrite IH.
Qed.

Lemma lstrip_count (chars : string) (c : ascii) (s : string) :
  PyStr.count c s = 0 -> PyStr.count c (PyStr.lstrip chars s) = 0.
Proof.
  induction s as [|x s IH]; [reflexivity|]. intros H.
  cbn [PyStr.lstrip]. destruct (PyStr.mem x chars); [|exact H].
  apply count_cons_zero in H. now apply IH.
Qed.

Lemma split_plain (s : string) :
  PyStr.count OsPath.sep s = 0 -> OsPath.split s = (EmptyString, s).
Proof.
  intros H. unfold OsPath.split. now rewrite cut_after_last_none.
Qed.

Lemma lstrip_first (chars : string) (s : string) :
  forall c rest, PyStr.lstrip chars s = String c rest ->
                 PyStr.mem c chars = false.
Proof.
  induction s as [|x s IH]; intros c rest H; [discriminate|].
  cbn [PyStr.lstrip] in H. destruct (PyStr.mem x chars) eqn:E.
  - eapply IH; eauto.
  - now injection H as <- _.
Qed.

Lemma lstrip_prefix (chars : string) (s : string) :
  exists pre, s = pre ++ PyStr.lstrip chars s
              /\ PyStr.lstrip chars pre = EmptyString.
Proof.
  induction s as [|x s IH].
  - now exists EmptyString.
  - cbn [PyStr.lstrip]. destruct (PyStr.mem x chars) eqn:E.
    + destruct IH as (pre & H1 & H2). exists (String x pre).
      cbn [append PyStr.lstrip]. rewrite E. split; [congruence | exact H2].
    + now exists EmptyString.
Qed.

Lemma wf_dir_at (t : tree) (names : list string) (d : tree) :
  dir_at t names d ->
  wf_tree t = true ->
  Forall (fun n => valid_name n = true) names /\ wf_tree d = true.
Proof.
  induction 1 as [t|subdirs filenames name sub names d Hin Hat IH];
    intros Hwf; [split; [constructor | exact Hwf]|].
  cbn [wf_tree] in Hwf. apply andb_prop in Hwf. destruct Hwf as [Hs _].
  rewrite forallb_forall in Hs. specialize (Hs _ Hin). cbn in Hs.
  apply andb_prop in Hs. destruct Hs as [Hn Hsub].
  destruct (IH Hsub) as [Hall Hd]. split; [now constructor | exact Hd].
Qed.

Lemma wf_file_at (t : tree) (names : list string) (f : string) :
  file_at t names f ->
  wf_tree t = true ->
  Forall (fun n => valid_name n = true) names /\ valid_name f = true.
Proof.
  intros (sd & fns & Hat & Hf) Hwf.
  destruct (wf_dir_at _ _ _ Hat Hwf) as [Hall Hd]. split; [exact Hall|].
  cbn [wf_tree] in Hd. apply andb_prop in Hd. destruct Hd as [_ Hd].
  rewrite forallb_forall in Hd. now apply Hd.
Qed.

End Splitting.

(** ** What the collector yields *)

Section Filter.

Lemma good_filename_inv (f : string) :
  good_filename f = true ->
  f <> "mod.rs"
  /\ In (PyStr.lower (snd (OsPath.splitext f))) fs_exts.
Proof.
  unfold good_filename, in_fs_exts. intros H.
  apply andb_prop in H. destruct H as [Hn He]. split.
  - intros ->. discriminate.
  - cbn [fs_exts existsb] in He. rewrite orb_false_r in He.
    apply String.eqb_eq in He. left. now symmetry.
Qed.

Lemma mem_dot_slash (c : ascii) :
  PyStr.mem c "./" = false -> c <> "."%char /\ c <> "/"%char.
Proof.
  cbn [PyStr.mem]. rewrite orb_false_r. intros H.
  apply orb_false_elim in H. destruct H as [H1 H2].
  split; now apply Ascii.eqb_neq.
Qed.

Lemma yielded_name (names : list string) (f : string) :
  Forall (fun d => valid_name d = true) names ->
  Forall (fun d => keep_dirname d = true) names ->
  valid_name f = true ->
  names <> [] \/ PyStr.startswith "." f = false ->
  name_of (yielded_path "." names f) = f.
Proof.
  intros Hv Hk Hf Hcase. unfold name_of.
  destruct names as [|n names].
  - destruct Hcase as [Hne|Hdot]; [now elim Hne|].
    rewrite yielded_top.
    apply valid_name_inv in Hf. destruct Hf as [Ht Hc].
    destruct f as [|c f]; [discriminate|].
    assert (Hm : PyStr.mem c "./" = false).
    { apply count_cons_zero in Hc. destruct Hc as [Hc _].
      unfold PyStr.startswith in Hdot. cbn [String.prefix] in Hdot.
      cbn [PyStr.mem]. unfold OsPath.sep in Hc. rewrite Hc.
      destruct (ascii_dec "." c) as [<-|Hne]; [now destruct f|].
      assert (Ascii.eqb c "." = false) as -> by
          (apply Ascii.eqb_neq; congruence).
      reflexivity. }
    cbn [PyStr.lstrip]. rewrite Hm. now rewrite split_plain.
  - inversion Hk; subst.
    rewrite yielded_nested by auto. now rewrite split_concat.
Qed.

Lemma yielded_dir (names : list string) (f : string) :
  Forall (fun d => valid_name d = true) names ->
  Forall (fun d => keep_dirname d = true) names ->
  valid_name f = true ->
  dir_of (yielded_path "." names f)
  = match names with
    | [] => EmptyString
    | _ => String.concat "/" names
    end.
Proof.
  intros Hv Hk Hf. unfold dir_of. destruct names as [|n names].
  - rewrite yielded_top, split_plain; [reflexivity|].
    apply lstrip_count. now apply valid_name_inv in Hf.
  - inversion Hk; subst.
    rewrite yielded_nested by auto. now rewrite split_concat.
Qed.

End Filter.

(** C4, as stated: a yielded path may have an extension that is not in the
    allow-list, here [.RS], and a yielded path may have the basename
    [mod.rs], here for the top-level file [.mod.rs]. *)
Lemma filter_claim_fails :
  (In "a/q.RS" (good_filepaths (snapshot_of mixed_tree) ".")
   /\ snd (OsPath.splitext (name_of "a/q.RS")) = ".RS"
   /\ ~ In ".RS" fs_exts)
  /\ (good_filepaths (snapshot_of dot_mod_tree) "." = ["mod.rs"]
      /\ name_of "mod.rs" = "mod.rs").
Proof.
  split; [split; [|split]|split].
  - vm_compute. right. right. left. reflexivity.
  - reflexivity.
  - intros [H|[]]. discriminate.
  - reflexivity.
  - reflexivity.
Qed.

(** C4, amended: in a tree whose names are non-empty and hold no separator,
    every yielded path is the stripped join for a file listed in a visited
    directory whose name is not exactly [mod.rs] and whose extension,
    lower-cased, is in the allow-list; unless the file is a top-level file
    whose name begins with a dot, the basename of the yielded path is that
    file name. *)
Theorem yielded_files_pass_filter (fs : snapshot) (path : string) :
  wf_tree (fs ".") = true ->
  In path (good_filepaths fs ".") ->
  exists names f,
    file_at (fs ".") names f
    /\ path = yielded_path "." names f
    /\ f <> "mod.rs"
    /\ In (PyStr.lower (snd (OsPath.splitext f))) fs_exts
    /\ (names <> [] \/ PyStr.startswith "." f = false ->
        name_of path = f
        /\ name_of path <> "mod.rs"
        /\ In (PyStr.lower (snd (OsPath.splitext (name_of path)))) fs_exts).
Proof.
  intros Hwf Hin.
  destruct (good_filepaths_sound fs "." path Hin)
    as (names & f & Hat & Hk & Hg & ->).
  destruct (wf_file_at _ _ _ Hat Hwf) as [Hv Hf].
  destruct (good_filename_inv f Hg) as [Hne Hext].
  exists names, f. repeat split; auto;
    rewrite (yielded_name names f Hv Hk Hf H); auto.
Qed.

(** The file [q.RS] of the directory [a] of [mixed_tree]. *)
Lemma yielded_files_pass_filter_witness :
  exists names f,
    file_at (snapshot_of mixed_tree ".") names f
    /\ "a/q.RS" = yielded_path "." names f
    /\ f <> "mod.rs"
    /\ In (PyStr.lower (snd (OsPath.splitext f))) fs_exts
    /\ (names <> [] \/ PyStr.startswith "." f = false ->
        name_of "a/q.RS" = f
        /\ name_of "a/q.RS" <> "mod.rs"
        /\ In (PyStr.lower (snd (OsPath.splitext (name_of "a/q.RS"))))
              fs_exts).
Proof.
  apply (yielded_files_pass_filter (snapshot_of mixed_tree) "a/q.RS").
  - reflexivity.
  - vm_compute. right. right. left. reflexivity.
Defined.

(** C5: in a tree whose names are non-empty and hold no separator, the walk
    only visits directories reached along names that do not start with a dot
    or an underscore; every yielded path belongs to a file of such a
    directory, and no segment of its directory portion starts with a dot or
    an underscore. *)
Theorem hidden_directories_skipped (fs : snapshot) :
  wf_tree (fs ".") = true ->
  (forall dirpath dirnames filenames,
      In (dirpath, dirnames, filenames) (os_walk keep_dirname "." (fs ".")) ->
      exists names subdirs,
        dir_at (fs ".") names (Dir subdirs filenames)
        /\ Forall (fun d => hidden d = false) names
        /\ dirpath = dirpath_of "." names)
  /\ (forall path,
        In path (good_filepaths fs ".") ->
        (exists names f,
            file_at (fs ".") names f
            /\ Forall (fun d => hidden d = false) names
            /\ path = yielded_path "." names f
            /\ (names <> [] ->
                PyStr.split OsPath.sep (dir_of path) = names))
        /\ Forall (fun segment => hidden segment = false)
                  (PyStr.split OsPath.sep (dir_of path))).
Proof.
  intros Hwf. split.
  - intros dirpath dirnames filenames Hin.
    destruct (walk_visits_sound _ _ _ _ _ _ Hin)
      as (names & sd & Hat & _ & Hk & ->).
    exists names, sd. repeat split; auto.
    eapply Forall_impl; [|exact Hk]. apply keep_not_hidden.
  - intros path Hin.
    destruct (good_filepaths_sound fs "." path Hin)
      as (names & f & Hat & Hk & Hg & ->).
    destruct (wf_file_at _ _ _ Hat Hwf) as [Hv Hf].
    assert (Hh : Forall (fun d => hidden d = false) names)
      by (eapply Forall_impl; [|exact Hk]; apply keep_not_hidden).
    rewrite (yielded_dir names f Hv Hk Hf).
    split.
    + exists names, f. repeat split; auto.
      intros Hne. destruct names; [now elim Hne|].
      now apply split_of_concat.
    + destruct names as [|n names].
      * repeat constructor.
      * now rewrite split_of_concat.
Qed.

(** A path of [mixed_tree], which has the directories [.git] and [_build]. *)
Lemma hidden_directories_skipped_witness :
  Forall (fun segment => hidden segment = false)
         (PyStr.split OsPath.sep (dir_of "a/b_c/Mod.rs")).
Proof.
  refine (proj2 (proj2 (hidden_directories_skipped (snapshot_of mixed_tree)
                          eq_refl) "a/b_c/Mod.rs" _)).
  vm_compute. do 4 right. left. reflexivity.
Defined.

(** ** Case of the extension and of the excluded name *)

Section Extension.

Lemma cut_at_last_none (c : ascii) (s : string) :
  PyStr.count c s = 0 -> OsPath.cut_at_last c s = None.
Proof.
  induction s as [|x s IH]; [reflexivity|]. intros H.
  apply count_cons_zero in H. destruct H as [Hx Hs].
  cbn [OsPath.cut_at_last]. now rewrite (IH Hs), Hx.
Qed.

Lemma cut_at_last_snoc (c : ascii) (stem ext : string) :
  PyStr.count c ext = 0 ->
  OsPath.cut_at_last c (stem ++ String c ext) = Some (stem, String c ext).
Proof.
  intros He. induction stem as [|x stem IH]; cbn [append].
  - cbn [OsPath.cut_at_last].
    now rewrite (cut_at_last_none c ext He), Ascii.eqb_refl.
  - cbn [OsPath.cut_at_last]. fold (stem ++ String c ext).
    now rewrite IH.
Qed.

Lemma lower_rs (ext : string) :
  PyStr.lower ext = "rs" ->
  PyStr.count OsPath.extsep ext = 0 /\ PyStr.count OsPath.sep ext = 0.
Proof.
  destruct ext as [|a [|b [|]]]; try discriminate.
  cbn [PyStr.lower]. intros H. injection H as Ha Hb.
  assert (Hnot : forall (x c : ascii),
             PyStr.lower_char c = c -> PyStr.lower_char x <> c ->
             Ascii.eqb x c = false).
  { intros x c Hc Hx. apply Ascii.eqb_neq. intros ->. now elim Hx. }
  cbn [PyStr.count].
  rewrite (Hnot a OsPath.extsep), (Hnot b OsPath.extsep),
    (Hnot a OsPath.sep), (Hnot b OsPath.sep);
    try reflexivity; try (rewrite Ha; discriminate);
    try (rewrite Hb; discriminate).
  split; reflexivity.
Qed.

Lemma splitext_stem (stem ext : string) :
  PyStr.count OsPath.sep stem = 0 ->
  OsPath.has_non_dot stem = true ->
  PyStr.count OsPath.extsep ext = 0 ->
  PyStr.count OsPath.sep ext = 0 ->
  OsPath.splitext (stem ++ "." ++ ext) = (stem, "." ++ ext).
Proof.
  intros Hs Hd He1 He2. unfold OsPath.splitext.
  rewrite cut_after_last_none.
  - change ("." ++ ext) with (String OsPath.extsep ext).
    rewrite (cut_at_last_snoc OsPath.extsep stem ext He1).
    now rewrite Hd.
  - rewrite count_append, Hs. cbn. exact He2.
Qed.

(** A name with a stem and an extension that is [rs] up to case passes the
    test, unless it is exactly [mod.rs]. *)
Lemma good_filename_any_case (stem ext : string) :
  PyStr.count OsPath.sep stem = 0 ->
  OsPath.has_non_dot stem = true ->
  PyStr.lower ext = "rs" ->
  stem ++ "." ++ ext <> "mod.rs" ->
  good_filename (stem ++ "." ++ ext) = true.
Proof.
  intros Hs Hd He Hne. unfold good_filename.
  destruct (lower_rs ext He) as [He1 He2].
  rewrite (splitext_stem stem ext Hs Hd He1 He2). cbn [snd].
  apply andb_true_intro. split.
  - apply negb_true_iff. now apply String.eqb_neq.
  - cbn [append PyStr.lower]. rewrite He. reflexivity.
Qed.

End Extension.

(** C9: a file of a visited directory whose extension is [rs] in any mix of
    upper and lower case passes the filter unless its name is exactly
    [mod.rs]; so files named [Mod.rs], [MOD.RS], [x.RS] or [x.Rs] are
    yielded, and their file entries are in the output. *)
Theorem case_variants_yielded (fs : snapshot) (top_dir : string)
    (names : list string) (stem ext : string) :
  file_at (fs ".") names (stem ++ "." ++ ext) ->
  Forall (fun d => keep_dirname d = true) names ->
  PyStr.count OsPath.sep stem = 0 ->
  OsPath.has_non_dot stem = true ->
  PyStr.lower ext = "rs" ->
  stem ++ "." ++ ext <> "mod.rs" ->
  good_filename (stem ++ "." ++ ext) = true
  /\ In (yielded_path "." names (stem ++ "." ++ ext)) (good_filepaths fs ".")
  /\ In (entry_of_path (yielded_path "." names (stem ++ "." ++ ext)))
        (g_output (snd (build_directory_md fs top_dir initial_world))).
Proof.
  intros Hat Hk Hs Hd He Hne.
  pose proof (good_filename_any_case stem ext Hs Hd He Hne) as Hg.
  pose proof (good_filepaths_complete fs "." names _ Hat Hk Hg) as Hin.
  split; [exact Hg | split; [exact Hin|]].
  now apply entry_in_output.
Qed.

(** [Mod.rs] and [MOD.RS] below [lib], and [main.Rs] at top level. *)
Lemma case_variants_yielded_witness :
  (In "lib/Mod.rs" (good_filepaths (snapshot_of case_tree) ".")
   /\ In ("  * [Mod](" ++ URL_BASE ++ "/lib/Mod.rs)")
         (g_output (snd (build_directory_md (snapshot_of case_tree) "."
                           initial_world))))
  /\ (In "lib/MOD.RS" (good_filepaths (snapshot_of case_tree) ".")
      /\ In ("  * [Mod](" ++ URL_BASE ++ "/lib/MOD.RS)")
            (g_output (snd (build_directory_md (snapshot_of case_tree) "."
                              initial_world))))
  /\ In "main.Rs" (good_filepaths (snapshot_of case_tree) ".").
Proof.
  assert (Hlib : forall f, In f ["MOD.RS"; "Mod.rs"; "mod.rs"] ->
                           file_at (snapshot_of case_tree ".") ["lib"] f).
  { intros f Hf. exists [], ["MOD.RS"; "Mod.rs"; "mod.rs"]. split; [|exact Hf].
    eapply dir_below; [left; reflexivity | apply dir_here]. }
  assert (Hk : Forall (fun d => keep_dirname d = true) ["lib"])
    by (repeat constructor).
  split; [|split].
  - refine (proj2 (case_variants_yielded (snapshot_of case_tree) "."
                     ["lib"] "Mod" "rs" (Hlib _ _) Hk eq_refl eq_refl eq_refl
                     _)); [right; left; reflexivity | discriminate].
  - refine (proj2 (case_variants_yielded (snapshot_of case_tree) "."
                     ["lib"] "MOD" "RS" (Hlib _ _) Hk eq_refl eq_refl eq_refl
                     _)); [left; reflexivity | discriminate].
  - refine (proj1 (proj2 (case_variants_yielded (snapshot_of case_tree) "."
                            [] "main" "Rs" _ (Forall_nil _)
                            eq_refl eq_refl eq_refl _))); [|discriminate].
    exists [("lib", Dir [] ["MOD.RS"; "Mod.rs"; "mod.rs"])], ["main.Rs"].
    split; [apply dir_here | left; reflexivity].
Defined.

(** C10: the collector strips every leading dot and slash of the joined
    path, so no yielded path starts with a dot or a slash; for a top-level
    file that passes the filter, the yielded path is the file name without
    its leading dots, a name beginning with a dot loses that dot, and the
    file entry in the output, link and display name, is made from the
    stripped path. *)
Theorem top_level_leading_dots_stripped (fs : snapshot) (top_dir : string)
    (subdirs : list (string * tree)) (filenames : list string) (f : string) :
  fs "." = Dir subdirs filenames ->
  In f filenames ->
  good_filename f = true ->
  (forall path c rest,
      In path (good_filepaths fs ".") -> path = String c rest ->
      c <> "."%char /\ c <> "/"%char)
  /\ PyStr.lstrip "./" (OsPath.join "." f) = PyStr.lstrip "./" f
  /\ In (PyStr.lstrip "./" f) (good_filepaths fs ".")
  /\ (exists stripped,
        f = stripped ++ PyStr.lstrip "./" f
        /\ PyStr.lstrip "./" stripped = EmptyString)
  /\ (forall rest, f = String "." rest ->
                   PyStr.lstrip "./" f = PyStr.lstrip "./" rest)
  /\ In (entry_of_path (PyStr.lstrip "./" f))
        (g_output (snd (build_directory_md fs top_dir initial_world))).
Proof.
  intros Hfs Hf Hg.
  assert (Hin : In (PyStr.lstrip "./" f) (good_filepaths fs ".")).
  { rewrite <- yielded_top. apply good_filepaths_complete; auto.
    exists subdirs, filenames. rewrite Hfs. split; [apply dir_here | exact Hf]. }
  split; [|split; [|split; [|split; [|split]]]].
  - intros path c rest Hp ->.
    destruct (good_filepaths_sound fs "." _ Hp) as (names & g & _ & _ & _ & E).
    unfold yielded_path in E. symmetry in E.
    apply lstrip_first in E. now apply mem_dot_slash.
  - apply (yielded_top f).
  - exact Hin.
  - apply lstrip_prefix.
  - intros rest ->. reflexivity.
  - now apply entry_in_output.
Qed.

(** The top-level file [.hidden.rs] of [mixed_tree]. *)
Lemma top_level_leading_dots_stripped_witness :
  In "hidden.rs" (good_filepaths (snapshot_of mixed_tree) ".")
  /\ In (PyStr.nl ++ "## [Hidden](" ++ URL_BASE ++ "//hidden.rs)")
        (g_output (snd (build_directory_md (snapshot_of mixed_tree) "."
                          initial_world))).
Proof.
  pose proof (top_level_leading_dots_stripped (snapshot_of mixed_tree) "."
                _ _ ".hidden.rs" eq_refl (or_introl eq_refl) eq_refl) as H.
  split; [exact (proj1 (proj2 (proj2 H)))|].
  exact (proj2 (proj2 (proj2 (proj2 (proj2 H))))).
Defined.


(** ** Further properties of [print_path] *)

Section PathSegments.

Lemma loop_common_prefix (pre : list string) :
  forall done old_rest new_rest,
    loop_lines (done ++ pre ++ old_rest) (List.length done) (pre ++ new_rest)
    = loop_lines (done ++ pre ++ old_rest)
                 (List.length done + List.length pre) new_rest.
Proof.
  induction pre as [|s pre IH]; intros done old_rest new_rest.
  - cbn [app List.length]. now rewrite Nat.add_0_r.
  - cbn [app loop_lines].
    replace (List.length (done ++ s :: pre ++ old_rest)
             <? List.length done + 1)%nat with false
      by (symmetry; apply Nat.ltb_ge; rewrite length_app; simpl; lia).
    rewrite nth_middle, String.eqb_refl. cbn [orb negb andb app].
    specialize (IH (done ++ [s])%list old_rest new_rest).
    rewrite <- app_assoc, length_app in IH. cbn [app List.length] in IH.
    rewrite IH. f_equal. cbn [List.length]. lia.
Qed.

Lemma loop_past_end (old_parts new_parts : list string) :
  forall i, List.length old_parts <= i ->
    loop_lines old_parts i new_parts = segment_lines_from i new_parts.
Proof.
  induction new_parts as [|part rest IH]; intros i Hi; [reflexivity|].
  cbn [loop_lines segment_lines_from].
  replace (List.length old_parts <? i + 1)%nat with true
    by (symmetry; apply Nat.ltb_lt; lia).
  cbn [orb andb]. now rewrite IH by lia.
Qed.

Lemma loop_from_empty (new_parts : list string) :
  loop_lines [EmptyString] 0 new_parts = segment_lines_from 0 new_parts.
Proof.
  destruct new_parts as [|part rest]; [reflexivity|].
  cbn [loop_lines segment_lines_from List.length nth].
  rewrite loop_past_end by (simpl; lia).
  destruct part; reflexivity.
Qed.

Lemma segment_lines_length (parts : list string) :
  Forall (fun n => valid_name n = true) parts ->
  forall i, List.length (segment_lines_from i parts) = List.length parts.
Proof.
  induction 1 as [|part rest Hp Hall IH]; intros i; [reflexivity|].
  cbn [segment_lines_from]. apply valid_name_inv in Hp.
  destruct Hp as [-> _]. cbn [app List.length]. now rewrite IH.
Qed.

Lemma valid_app (l1 l2 : list string) :
  Forall (fun n => valid_name n = true) (l1 ++ l2) ->
  Forall (fun n => valid_name n = true) l1
  /\ Forall (fun n => valid_name n = true) l2.
Proof. apply Forall_app. Qed.

End PathSegments.

(** X1: a path is yielded by the collector, for whatever starting directory,
    exactly when it is the stripped join for a file that passes the test and
    is listed in a directory reached from the start along kept names. *)
Theorem good_filepaths_exactly (fs : snapshot) (top_dir path : string) :
  In path (good_filepaths fs top_dir)
  <-> exists names f,
        file_at (fs top_dir) names f
        /\ Forall (fun d => keep_dirname d = true) names
        /\ good_filename f = true
        /\ path = yielded_path top_dir names f.
Proof.
  split.
  - apply good_filepaths_sound.
  - intros (names & f & Hat & Hk & Hg & ->).
    now apply good_filepaths_complete.
Qed.

(** X2: [print_path] returns its second argument, leaves the earlier
    contents of the accumulator and of standard output in place, and appends
    the same lines to both; these lines do not depend on the earlier
    contents. *)
Theorem print_path_appends (old_path new_path : string) (w : world) :
  fst (print_path old_path new_path w) = new_path
  /\ g_output (snd (print_path old_path new_path w))
     = (g_output w
          ++ g_output (snd (print_path old_path new_path initial_world)))%list
  /\ stdout (snd (print_path old_path new_path w))
     = (stdout w
          ++ g_output (snd (print_path old_path new_path initial_world)))%list.
Proof. rewrite !print_path_spec. repeat split. Qed.

(** X3: a call of [build_directory_md] prints exactly the lines it appends to
    the accumulator, in the same order; after the call of a program run,
    standard output and the accumulator hold the same lines. *)
Theorem printed_lines_mirror_accumulator (fs : snapshot) (top_dir : string)
    (w : world) :
  stdout (snd (build_directory_md fs top_dir w))
  = (stdout w ++ run_lines fs)%list
  /\ stdout (snd (build_directory_md fs top_dir initial_world))
     = g_output (snd (build_directory_md fs top_dir initial_world)).
Proof.
  unfold run_lines. rewrite !build_directory_md_spec. split; reflexivity.
Qed.

(** X4: when the segments of the new path are leading segments of the old
    path (the same directory, or one of its ancestors), [print_path] emits
    nothing; and it emits nothing for the empty new path, whatever the old
    one. *)
Theorem print_path_silent_going_up (names deeper : list string)
    (old_path : string) (w : world) :
  names <> [] ->
  Forall (fun n => valid_name n = true) (names ++ deeper) ->
  print_path (String.concat "/" (names ++ deeper)) (String.concat "/" names) w
  = (String.concat "/" names, w)
  /\ print_path old_path EmptyString w = (EmptyString, w).
Proof.
  intros Hne Hall. split.
  - rewrite print_path_spec.
    destruct (valid_app _ _ Hall) as [Hn _].
    rewrite !split_of_concat by (auto; now destruct names).
    pose proof (loop_common_prefix names [] deeper []) as H.
    cbn [app List.length Nat.add] in H. rewrite app_nil_r in H.
    rewrite H. cbn [loop_lines]. now rewrite emit_all_nil.
  - rewrite print_path_spec. cbn [PyStr.split loop_lines PyStr.truthy].
    rewrite andb_false_r. cbn [app]. now rewrite emit_all_nil.
Qed.

(** From sorting/deep up to sorting, and from sorting to the root. *)
Lemma print_path_silent_going_up_witness :
  print_path "sorting/deep" "sorting" initial_world
  = ("sorting", initial_world)
  /\ print_path "sorting" EmptyString initial_world
     = (EmptyString, initial_world).
Proof.
  apply (print_path_silent_going_up ["sorting"] ["deep"] "sorting"
           initial_world).
  - discriminate.
  - repeat constructor.
Defined.

(** X5: when the new path extends the old, non-empty one by further
    segments, [print_path] emits one line per added segment and nothing for
    the segments they share; the first added segment is at the depth that
    is the number of segments of the old path. *)
Theorem print_path_going_down (names more : list string) (w : world) :
  names <> [] ->
  Forall (fun n => valid_name n = true) (names ++ more) ->
  print_path (String.concat "/" names) (String.concat "/" (names ++ more)) w
  = (String.concat "/" (names ++ more),
     emit_all (segment_lines_from (List.length names) more) w)
  /\ List.length (segment_lines_from (List.length names) more)
     = List.length more.
Proof.
  intros Hne Hall. destruct (valid_app _ _ Hall) as [Hn Hm]. split.
  - rewrite print_path_spec.
    rewrite !split_of_concat by (auto; now destruct names).
    pose proof (loop_common_prefix names [] [] more) as H.
    cbn [app List.length Nat.add] in H. rewrite app_nil_r in H.
    rewrite H. now rewrite loop_past_end by lia.
  - now apply segment_lines_length.
Qed.

(** From sorting down to sorting/deep/er: two bullets, at depths 1 and 2. *)
Lemma print_path_going_down_witness :
  print_path "sorting" "sorting/deep/er" initial_world
  = ("sorting/deep/er",
     emit_all ["  * Deep"; "    * Er"] initial_world).
Proof.
  apply (print_path_going_down ["sorting"] ["deep"; "er"] initial_world).
  - discriminate.
  - repeat constructor.
Defined.

(** X6: segments are compared position by position: when the old and the new
    path differ in one segment and agree before and after it, [print_path]
    emits the line of that segment alone, and no line for the equally named
    segments below it, although they are other directories. *)
Theorem print_path_same_names_below (pre below : list string)
    (old_seg new_seg : string) (w : world) :
  old_seg <> new_seg ->
  Forall (fun n => valid_name n = true)
         (pre ++ old_seg :: new_seg :: below) ->
  print_path (String.concat "/" (pre ++ old_seg :: below))
             (String.concat "/" (pre ++ new_seg :: below)) w
  = (String.concat "/" (pre ++ new_seg :: below),
     emit (segment_line (List.length pre) new_seg) w).
Proof.
  intros Hne Hall.
  apply Forall_app in Hall. destruct Hall as [Hp Hall].
  inversion Hall as [|? ? Ho Hall']; subst.
  inversion Hall' as [|? ? Hn Hb]; subst.
  rewrite print_path_spec.
  rewrite !split_of_concat;
    try (now destruct pre); try (apply Forall_app; split; auto).
  pose proof (loop_common_prefix pre [] (old_seg :: below)
                (new_seg :: below)) as H.
  cbn [app List.length Nat.add] in H. rewrite H. cbn [loop_lines].
  replace (List.length (pre ++ old_seg :: below) <? List.length pre + 1)%nat
    with false
    by (symmetry; apply Nat.ltb_ge; rewrite length_app; simpl; lia).
  rewrite nth_middle.
  apply String.eqb_neq in Hne. rewrite Hne.
  apply valid_name_inv in Hn. destruct Hn as [-> _]. cbn [orb negb andb].
  pose proof (loop_common_prefix below (pre ++ [old_seg])%list [] []) as H'.
  rewrite <- !app_assoc, length_app in H'. cbn [app List.length] in H'.
  rewrite !app_nil_r in H'. rewrite H'. cbn [loop_lines app].
  now rewrite emit_emit_all.
Qed.

(** From a/b/c to a/x/c: the line of x, and none for c. *)
Lemma print_path_same_names_below_witness :
  print_path "a/b/c" "a/x/c" initial_world
  = ("a/x/c", emit "  * X" initial_world).
Proof.
  apply (print_path_same_names_below ["a"] ["c"] "b" "x" initial_world).
  - discriminate.
  - repeat constructor.
Defined.

(** X7: from the empty cursor, [print_path] emits the whole chain of the new
    path, one line per segment, the first at depth 0. *)
Theorem print_path_from_empty_cursor (names : list string) (w : world) :
  names <> [] ->
  Forall (fun n => valid_name n = true) names ->
  print_path EmptyString (String.concat "/" names) w
  = (String.concat "/" names, emit_all (segment_lines_from 0 names) w)
  /\ List.length (segment_lines_from 0 names) = List.length names.
Proof.
  intros Hne Hall. split.
  - rewrite print_path_spec, split_of_concat by auto.
    cbn [PyStr.split]. now rewrite loop_from_empty.
  - now apply segment_lines_length.
Qed.

(** The chain of a/b_c. *)
Lemma print_path_from_empty_cursor_witness :
  print_path EmptyString "a/b_c" initial_world
  = ("a/b_c", emit_all [PyStr.nl ++ "## A"; "  * B C"] initial_world).
Proof.
  apply (print_path_from_empty_cursor ["a"; "b_c"] initial_world).
  - discriminate.
  - repeat constructor.
Defined.

(** ** Markers, links and line shapes *)

Section Shapes.

Lemma length_append (a b : string) :
  String.length (a ++ b) = String.length a + String.length b.
Proof. induction a as [|x a IH]; simpl; [reflexivity | now rewrite IH]. Qed.

Lemma repeat_length (n : nat) (s : string) :
  String.length (PyStr.repeat n s) = n * String.length s.
Proof.
  induction n as [|n IH]; [reflexivity|].
  cbn [PyStr.repeat]. rewrite length_append, IH. reflexivity.
Qed.

Lemma md_prefix_length (n : nat) :
  String.length (md_prefix (S n)) = 2 * S n + 1.
Proof.
  unfold md_prefix. rewrite length_append, repeat_length. simpl. lia.
Qed.

Lemma prefix_append (p s : string) : String.prefix p (p ++ s) = true.
Proof.
  induction p as [|x p IH]; [now destruct s|].
  cbn [append String.prefix]. now destruct (ascii_dec x x).
Qed.

Lemma replace_append (c : ascii) (new a b : string) :
  PyStr.replace c new (a ++ b)
  = PyStr.replace c new a ++ PyStr.replace c new b.
Proof.
  induction a as [|x a IH]; [reflexivity|].
  cbn [append PyStr.replace]. rewrite IH.
  destruct (Ascii.eqb x c); [now rewrite append_assoc | reflexivity].
Qed.

Lemma count_replace (c : ascii) (new s : string) :
  PyStr.count c new = 0 -> PyStr.count c (PyStr.replace c new s) = 0.
Proof.
  intros Hn. induction s as [|x s IH]; [reflexivity|].
  cbn [PyStr.replace]. destruct (Ascii.eqb x c) eqn:E.
  - now rewrite count_append, Hn, IH.
  - cbn [PyStr.count]. now rewrite E, IH.
Qed.

Lemma loop_line_shape (old_parts new_parts : list string) (line : string) :
  forall i, In line (loop_lines old_parts i new_parts) ->
            exists d part, line = segment_line d part.
Proof.
  induction new_parts as [|part rest IH]; intros i Hin; [contradiction|].
  cbn [loop_lines] in Hin. apply in_app_or in Hin. destruct Hin as [Hin|Hin].
  - destruct (_ && _); [|contradiction].
    destruct Hin as [<-|[]]. now exists i, part.
  - now apply (IH (i + 1)).
Qed.

Lemma marker_then_bracket (marker tail : string) :
  marker ++ " [" ++ tail = marker ++ " " ++ ("[" ++ tail).
Proof. reflexivity. Qed.

Lemma entry_line_shape (filepath filename : string) :
  entry_line filepath filename
  = md_prefix (entry_indent filepath) ++ " "
      ++ ("[" ++ display_name filename ++ "]("
            ++ entry_url filepath filename ++ ")").
Proof. unfold entry_line. apply marker_then_bracket. Qed.

Lemma block_line_shape (paths : list string) (line : string) :
  forall old_path,
    In line (List.concat (output_blocks old_path paths)) ->
    exists d rest, line = md_prefix d ++ " " ++ rest.
Proof.
  induction paths as [|path rest IH]; intros old_path Hin; [contradiction|].
  cbn [output_blocks List.concat] in Hin.
  apply in_app_or in Hin. destruct Hin as [Hin|Hin]; [|now apply IH in Hin].
  apply in_app_or in Hin. destruct Hin as [Hin|[Hin|[]]].
  - rewrite heading_lines_loop in Hin.
    destruct (negb _); [|contradiction].
    apply loop_line_shape in Hin. destruct Hin as (d & part & ->).
    exists d, (PyStr.title (PyStr.replace "_" " " part)).
    unfold segment_line. reflexivity.
  - subst line. eexists _, _. unfold entry_of_path. apply entry_line_shape.
Qed.

End Shapes.

(** X8: the marker determines the depth: two depths have the same marker
    only if they are equal. *)
Theorem md_prefix_determines_depth (i j : nat) :
  (md_prefix i =? md_prefix j)%string = (i =? j)%nat.
Proof.
  destruct (Nat.eqb_spec i j) as [->|Hne]; [apply String.eqb_refl|].
  apply String.eqb_neq. intros H.
  destruct i as [|i], j as [|j].
  - now elim Hne.
  - cbn in H. now injection H.
  - cbn in H. now injection H.
  - apply (f_equal String.length) in H.
    rewrite !md_prefix_length in H. lia.
Qed.

(** X9: the link target is the base URL, the directory portion and the file
    name joined by slashes, with every space of the directory portion and of
    the file name replaced by [%20]; it holds no space. *)
Theorem entry_url_has_no_space (filepath filename : string) :
  entry_url filepath filename
  = URL_BASE ++ "/" ++ PyStr.replace " " "%20" filepath
      ++ "/" ++ PyStr.replace " " "%20" filename
  /\ PyStr.count " " (entry_url filepath filename) = 0.
Proof.
  split.
  - unfold entry_url, PyStr.join. cbn [String.concat].
    rewrite !replace_append. reflexivity.
  - apply count_replace. reflexivity.
Qed.

(** X10: every line of the output starts with the marker of some depth
    followed by a space. *)
Theorem output_lines_start_with_marker (fs : snapshot) :
  Forall (fun line =>
            exists d, PyStr.startswith (md_prefix d ++ " ") line = true)
         (run_lines fs).
Proof.
  unfold run_lines. rewrite build_directory_md_spec. cbn [snd].
  rewrite g_output_emit_all. cbn [g_output initial_world app].
  apply Forall_forall. intros line Hin.
  apply block_line_shape in Hin. destruct Hin as (d & rest & ->).
  exists d. unfold PyStr.startswith.
  rewrite <- append_assoc. apply prefix_append.
Qed.

(** ** Listing order and empty scans *)

Section ListingOrder.

Variable key : string -> string.

Lemma key_injective (l : list string) :
  NoDup (map key l) ->
  forall x y, In x l -> In y l -> key x = key y -> x = y.
Proof.
  induction l as [|a l IH]; intros Hnd x y Hx Hy E; [contradiction|].
  cbn [map] in Hnd. inversion Hnd as [|? ? Hnotin Hnd']; subst.
  destruct Hx as [<-|Hx], Hy as [<-|Hy]; auto.
  - elim Hnotin. rewrite E. now apply in_map.
  - elim Hnotin. rewrite <- E. now apply in_map.
Qed.

Lemma sorted_unique (l1 : list string) :
  forall l2,
    StronglySorted (key_le key) l1 -> StronglySorted (key_le key) l2 ->
    Permutation l1 l2 -> NoDup (map key l1) -> l1 = l2.
Proof.
  induction l1 as [|a l1 IH]; intros l2 Hs1 Hs2 Hp Hnd.
  - now apply Permutation_nil in Hp.
  - destruct l2 as [|b l2];
      [apply Permutation_sym, Permutation_nil in Hp; discriminate|].
    apply StronglySorted_inv in Hs1. destruct Hs1 as [Hs1 Ha].
    apply StronglySorted_inv in Hs2. destruct Hs2 as [Hs2 Hb].
    assert (Hab : a = b).
    { pose proof (Permutation_in a Hp (or_introl eq_refl)) as Hina.
      pose proof (Permutation_in b (Permutation_sym Hp) (or_introl eq_refl))
        as Hinb.
      destruct Hina as [Hina|Hina]; [now symmetry|].
      destruct Hinb as [Hinb|Hinb]; [exact Hinb|].
      rewrite Forall_forall in Ha, Hb.
      apply (key_injective (a :: l1) Hnd); [now left | now right|].
      apply String.leb_antisym; [apply (Ha _ Hinb) | apply (Hb _ Hina)]. }
    subst b. f_equal. apply Permutation_cons_inv in Hp.
    cbn [map] in Hnd. inversion Hnd; subst. now apply IH.
Qed.

Lemma sorted_of_permutation (l1 l2 : list string) :
  Permutation l1 l2 -> NoDup (map key l1) ->
  sorted key l1 = sorted key l2.
Proof.
  intros Hp Hnd. apply sorted_unique; try apply sorted_sorted.
  - eapply perm_trans; [apply Permutation_sym, sorted_perm|].
    eapply perm_trans; [exact Hp | apply sorted_perm].
  - eapply Permutation_NoDup; [|exact Hnd].
    apply Permutation_map, sorted_perm.
Qed.

End ListingOrder.

(** X11: the result does not depend on the order in which the directories
    list their entries: two snapshots whose collectors yield the same paths
    in whatever order give the same document and the same final state,
    provided no two yielded paths agree up to case. *)
Theorem listing_order_irrelevant (fs1 fs2 : snapshot) (top1 top2 : string)
    (w : world) :
  Permutation (good_filepaths fs1 ".") (good_filepaths fs2 ".") ->
  NoDup (map PyStr.lower (good_filepaths fs1 ".")) ->
  build_directory_md fs1 top1 w = build_directory_md fs2 top2 w.
Proof.
  intros Hp Hnd. rewrite !build_directory_md_spec.
  now rewrite (sorted_of_permutation PyStr.lower _ _ Hp Hnd).
Qed.

(** The sorting directory listed in either order. *)
Lemma listing_order_irrelevant_witness :
  build_directory_md (snapshot_of sorting_tree) "." initial_world
  = build_directory_md (snapshot_of sorting_tree_reversed) "." initial_world.
Proof.
  apply listing_order_irrelevant.
  - vm_compute. apply perm_swap.
  - vm_compute. repeat constructor; cbn; intuition discriminate.
Defined.

(** X12: when no file is yielded, the call returns the title line followed by
    a line feed and nothing else, appends and prints nothing, and the
    program writes the title line followed by two line feeds. *)
Theorem empty_scan (fs : snapshot) (top_dir : string) (w : world) :
  good_filepaths fs "." = [] ->
  g_output w = [] ->
  build_directory_md fs top_dir w = ("# List of all files" ++ PyStr.nl, w)
  /\ fst (main fs) = "# List of all files" ++ PyStr.nl ++ PyStr.nl.
Proof.
  intros H Hw. unfold main. rewrite !build_directory_md_spec, H.
  cbn [sorted fold_right output_blocks List.concat fst].
  rewrite emit_all_nil, app_nil_r, Hw. split; reflexivity.
Qed.

(** A working directory with a readme, a [mod.rs] and hidden directories. *)
Lemma empty_scan_witness :
  fst (main (snapshot_of
               (Dir [(".git", Dir [] ["hook.rs"]); ("_build", Dir [] ["o.rs"])]
                    ["readme.md"; "mod.rs"; "Makefile"; ".rs"])))
  = "# List of all files" ++ PyStr.nl ++ PyStr.nl.
Proof.
  refine (proj2 (empty_scan _ "." initial_world _ _)); reflexivity.
Defined.

(** ** Starting directories, extensions and display names *)

Section Names.

Lemma first_char_plain (f : string) :
  valid_name f = true -> PyStr.startswith "." f = false ->
  exists c rest, f = String c rest /\ PyStr.mem c "./" = false.
Proof.
  intros Hf Hdot. apply valid_name_inv in Hf. destruct Hf as [Ht Hc].
  destruct f as [|c f]; [discriminate|]. exists c, f. split; [reflexivity|].
  apply count_cons_zero in Hc. destruct Hc as [Hc _].
  unfold PyStr.startswith in Hdot. cbn [String.prefix] in Hdot.
  cbn [PyStr.mem]. unfold OsPath.sep in Hc. rewrite Hc.
  destruct (ascii_dec "." c) as [<-|Hne]; [now destruct f|].
  assert (Ascii.eqb c "." = false) as -> by (apply Ascii.eqb_neq; congruence).
  reflexivity.
Qed.

Lemma cut_after_last_parts (c : ascii) (p : string) :
  p = fst (OsPath.cut_after_last c p) ++ snd (OsPath.cut_after_last c p).
Proof.
  induction p as [|x p IH]; [reflexivity|].
  cbn [OsPath.cut_after_last].
  destruct (OsPath.cut_after_last c p) as [[|y h] t]; cbn [fst snd] in *.
  - destruct (Ascii.eqb_spec x c) as [->|_]; cbn [fst snd append];
      now rewrite IH at 1.
  - cbn [append]. now rewrite IH at 1.
Qed.

Lemma repeat_dots (n : nat) :
  PyStr.count OsPath.sep (PyStr.repeat n ".") = 0
  /\ OsPath.has_non_dot (PyStr.repeat n ".") = false.
Proof. induction n as [|n [IH1 IH2]]; split; cbn; auto. Qed.

Lemma case_keeps_separators (b : bool) (c : ascii) :
  Ascii.eqb (if PyStr.is_cased c
             then if b then PyStr.lower_char c else PyStr.upper_char c
             else c) "." = Ascii.eqb c "."
  /\ Ascii.eqb (if PyStr.is_cased c
                then if b then PyStr.lower_char c else PyStr.upper_char c
                else c) "/" = Ascii.eqb c "/".
Proof.
  destruct b; destruct c as [[] [] [] [] [] [] [] []];
    split; vm_compute; reflexivity.
Qed.

Lemma title_from_counts (s : string) :
  forall b,
    PyStr.count "." (PyStr.title_from b s) = PyStr.count "." s
    /\ PyStr.count "/" (PyStr.title_from b s) = PyStr.count "/" s
    /\ OsPath.has_non_dot (PyStr.title_from b s) = OsPath.has_non_dot s.
Proof.
  induction s as [|c s IH]; intros b; [repeat split|].
  destruct (case_keeps_separators b c) as [Hd Hs].
  cbn [PyStr.title_from].
  destruct (PyStr.is_cased c);
    cbn [PyStr.count OsPath.has_non_dot]; unfold OsPath.extsep;
    rewrite ?Hd, ?Hs;
    [destruct (IH true) as (-> & -> & ->)
    | destruct (IH false) as (-> & -> & ->)];
    repeat split.
Qed.

Lemma underscores_counts (s : string) :
  PyStr.count "." (PyStr.replace "_" " " s) = PyStr.count "." s
  /\ PyStr.count "/" (PyStr.replace "_" " " s) = PyStr.count "/" s
  /\ OsPath.has_non_dot (PyStr.replace "_" " " s) = OsPath.has_non_dot s.
Proof.
  induction s as [|c s (IH1 & IH2 & IH3)]; [repeat split|].
  cbn [PyStr.replace]. destruct (Ascii.eqb_spec c "_") as [->|_].
  - cbn. rewrite IH1, IH2. repeat split.
  - cbn [PyStr.count OsPath.has_non_dot]. rewrite IH1, IH2, IH3.
    repeat split.
Qed.

Lemma title_from_dot (a e : string) :
  forall b,
    PyStr.title_from b (a ++ String "." e)
    = PyStr.title_from b a ++ String "." (PyStr.title_from false e).
Proof.
  induction a as [|c a IH]; intros b; [reflexivity|].
  cbn [append PyStr.title_from].
  destruct (PyStr.is_cased c); now rewrite IH.
Qed.

End Names.

(** X13: started at a directory given by a plain name, the collector yields
    every path as the start, the directory names walked and the file name
    joined by slashes: nothing is stripped. *)
Theorem plain_top_dir_kept (fs : snapshot) (top_dir path : string) :
  valid_name top_dir = true ->
  PyStr.startswith "." top_dir = false ->
  wf_tree (fs top_dir) = true ->
  In path (good_filepaths fs top_dir) ->
  exists names f,
    file_at (fs top_dir) names f
    /\ path = String.concat "/" (top_dir :: names ++ [f]).
Proof.
  intros Hv Hdot Hwf Hin.
  destruct (good_filepaths_sound fs top_dir path Hin)
    as (names & f & Hat & _ & _ & ->).
  destruct (wf_file_at _ _ _ Hat Hwf) as [Hn Hf].
  exists names, f. split; [exact Hat|].
  destruct (first_char_plain top_dir Hv Hdot) as (c & rest & E & Hm).
  pose proof (valid_name_inv _ Hv) as [Ht Hc].
  unfold yielded_path.
  rewrite joined_path by (auto; now apply endswith_no).
  destruct (names ++ [f])%list as [|y l] eqn:El; [now destruct names|].
  rewrite concat_cons2. subst top_dir.
  cbn [append PyStr.lstrip]. now rewrite Hm.
Qed.

(** The walk started at src in [two_dirs_tree]. *)
Lemma plain_top_dir_kept_witness :
  exists names f,
    file_at (snapshot_of two_dirs_tree "src") names f
    /\ "src/a.rs" = String.concat "/" ("src" :: names ++ [f]).
Proof.
  apply (plain_top_dir_kept (snapshot_of two_dirs_tree) "src" "src/a.rs");
    try reflexivity.
  left. reflexivity.
Defined.

(** X14: a file whose name holds no dot has no extension and is never
    yielded. *)
Theorem name_without_dot_rejected (f : string) :
  PyStr.count OsPath.extsep f = 0 -> good_filename f = false.
Proof.
  intros Hf. unfold good_filename, OsPath.splitext.
  pose proof (cut_after_last_parts OsPath.sep f) as Hp.
  destruct (OsPath.cut_after_last OsPath.sep f) as [h t]. cbn [fst snd] in Hp.
  rewrite Hp, count_append in Hf.
  assert (Ht : PyStr.count OsPath.extsep t = 0) by lia.
  rewrite (cut_at_last_none _ _ Ht). cbn [snd PyStr.lower].
  apply andb_false_r.
Qed.

(** A Makefile. *)
Lemma name_without_dot_rejected_witness : good_filename "Makefile" = false.
Proof. apply name_without_dot_rejected. reflexivity. Defined.

(** X15: a file whose name is made of dots followed by a dot-free tail, such
    as [.rs] or [..rs], has no extension either and is never yielded. *)
Theorem dot_name_rejected (n : nat) (ext : string) :
  PyStr.count OsPath.extsep ext = 0 ->
  PyStr.count OsPath.sep ext = 0 ->
  good_filename (PyStr.repeat n "." ++ "." ++ ext) = false.
Proof.
  intros He1 He2. destruct (repeat_dots n) as [Hs Hd].
  unfold good_filename, OsPath.splitext.
  rewrite cut_after_last_none
    by (rewrite count_append, Hs; cbn; exact He2).
  change ("." ++ ext) with (String OsPath.extsep ext).
  rewrite (cut_at_last_snoc OsPath.extsep _ ext He1), Hd.
  cbn [snd PyStr.lower]. apply andb_false_r.
Qed.

(** The hidden files [.rs] and [..rs]. *)
Lemma dot_name_rejected_witness :
  good_filename ".rs" = false /\ good_filename "..rs" = false.
Proof.
  split.
  - apply (dot_name_rejected 0 "rs"); reflexivity.
  - apply (dot_name_rejected 1 "rs"); reflexivity.
Defined.

(** X16: for a file name made of a stem and a dot-free extension, the display
    name is the stem with underscores turned into spaces, in title case; the
    extension does not show. *)
Theorem display_name_is_titled_stem (stem ext : string) :
  PyStr.count OsPath.sep stem = 0 ->
  OsPath.has_non_dot stem = true ->
  PyStr.count OsPath.extsep ext = 0 ->
  PyStr.count OsPath.sep ext = 0 ->
  display_name (stem ++ "." ++ ext)
  = PyStr.title (PyStr.replace "_" " " stem).
Proof.
  intros Hs Hd He1 He2. unfold display_name, PyStr.title.
  rewrite replace_append.
  change (PyStr.replace "_" " " ("." ++ ext))
    with (String "." (PyStr.replace "_" " " ext)).
  rewrite title_from_dot.
  destruct (underscores_counts stem) as (_ & Hs1 & Hd1).
  destruct (underscores_counts ext) as (He1' & He2' & _).
  destruct (title_from_counts (PyStr.replace "_" " " stem) false)
    as (_ & Hs2 & Hd2).
  destruct (title_from_counts (PyStr.replace "_" " " ext) false)
    as (He1'' & He2'' & _).
  change (String "." (PyStr.title_from false (PyStr.replace "_" " " ext)))
    with ("." ++ PyStr.title_from false (PyStr.replace "_" " " ext)).
  rewrite splitext_stem; [reflexivity| | | |]; unfold OsPath.sep,
    OsPath.extsep in *; congruence.
Qed.

(** The display name of bubble_sort.rs. *)
Lemma display_name_is_titled_stem_witness :
  display_name "bubble_sort.rs" = "Bubble Sort".
Proof.
  apply (display_name_is_titled_stem "bubble_sort" "rs"); reflexivity.
Defined.

(** X17: the first file of a run, when it lies in a directory, is preceded by
    the whole chain of its directory, one line per segment from depth 0 on,
    and its own entry comes next, at the depth that is the number of
    segments of the directory. *)
Theorem first_file_prints_chain (fs : snapshot) (names : list string)
    (f : string) (rest : list string) :
  sorted PyStr.lower (good_filepaths fs ".")
  = String.concat "/" (names ++ [f]) :: rest ->
  names <> [] ->
  Forall (fun n => valid_name n = true) names ->
  valid_name f = true ->
  (exists tail,
      run_lines fs
      = (segment_lines_from 0 names
           ++ entry_line (String.concat "/" names) f :: tail)%list)
  /\ entry_indent (String.concat "/" names) = List.length names
  /\ List.length (segment_lines_from 0 names) = List.length names.
Proof.
  intros Hs Hne Hn Hf.
  destruct names as [|n names]; [now elim Hne|].
  pose proof (split_concat n names f Hn Hf) as Hsplit.
  pose proof (concat_truthy n names) as Ht.
  inversion Hn as [|? ? Hv _]; subst.
  apply valid_name_inv in Hv. destruct Hv as [Hv _]. specialize (Ht Hv).
  split; [|split].
  - unfold run_lines. rewrite build_directory_md_spec, Hs. cbn [snd].
    rewrite g_output_emit_all. cbn [g_output initial_world app].
    cbn [output_blocks List.concat].
    exists (List.concat (output_blocks (String.concat "/" (n :: names)) rest)).
    rewrite heading_lines_loop. unfold entry_of_path, dir_of, name_of.
    change ((n :: names) ++ [f])%list with (n :: (names ++ [f])%list)
      in Hsplit.
    rewrite Hsplit. cbn [fst snd].
    assert (E : (String.concat "/" (n :: names) =? EmptyString) = false).
    { apply String.eqb_neq. intros E. rewrite E in Ht. discriminate. }
    rewrite E. cbn [negb].
    rewrite split_of_concat by auto.
    cbn [PyStr.split]. rewrite loop_from_empty.
    rewrite <- app_assoc. reflexivity.
  - unfold entry_indent. rewrite Ht.
    rewrite <- split_length, split_of_concat by auto. reflexivity.
  - now apply segment_lines_length.
Qed.

(** The run over [sorting_tree]: the heading of sorting, then Bubble Sort. *)
Lemma first_file_prints_chain_witness :
  exists tail,
    run_lines (snapshot_of sorting_tree)
    = ([(PyStr.nl ++ "## Sorting")%string]
         ++ entry_line "sorting" "bubble_sort.rs" :: tail)%list.
Proof.
  refine (proj1 (first_file_prints_chain (snapshot_of sorting_tree)
                   ["sorting"] "bubble_sort.rs" ["sorting/quick_sort.rs"]
                   eq_refl _ _ eq_refl)).
  - discriminate.
  - repeat constructor.
Defined.
